(** * The Ollama model provider of the coding agent (src/ollama.ts)

    A shallow embedding of [OllamaModel._formatRequest] and
    [OllamaModel.stream], and the properties of the adapter that the
    specification states about them.

    JavaScript objects used as records with open key sets (the wire request,
    the [options] and [params] bags, the formatted messages) are finite maps
    from keys to dynamic values; arrays are lists; [formattedMessages.push]
    appends at the end of a threaded accumulator; the async generator is run
    to its end against a description of what the transport delivers, and the
    run records the events yielded, the calls on [logger.error] and whether
    the generator returned or threw. *)

From Stdlib Require Import ZArith String List Bool Lia.
From stdpp Require Import base option list strings gmap fin_maps.

Set Default Proof Using "Type".

(** ** Dynamic values *)

Section Provider.

(** JavaScript numbers that the adapter only copies (temperature, top_p,
    ...): their representation is left open. *)
Variable number : Type.

#[warnings="-register-all"] Inductive Value : Type :=
| VUndefined
| VNull
| VBool (b : bool)
| VNumber (n : number)
| VString (s : string)
| VBytes (bytes : list Byte.byte)
| VArray (items : list Value)
| VObject (fields : gmap string Value).

(** The host's [JSON.stringify], on the JSON values the SDK hands over. *)
Variable JSON_stringify : Value -> string.

(** An object literal [{k1: v1, ..., kn: vn}] with distinct keys. *)
Definition literal (fields : list (string * Value)) : gmap string Value :=
  list_to_map fields.

(** [x] where [x] may be [undefined]. *)
Definition optional {A} (inj : A -> Value) (x : option A) : Value :=
  match x with
  | Some a => inj a
  | None => VUndefined
  end.

(** [bag || {}] *)
Definition orEmpty (bag : option (gmap string Value)) : gmap string Value :=
  match bag with
  | Some fields => fields
  | None => ∅
  end.

(** ** The SDK's conversation types *)

(** Modelled from the spec: the declarations of the SDK's [ImageBlock]
    source are not among the sources; an image has a source kind, inline
    bytes being the one the formatter converts. *)
Inductive ImageSource : Type :=
| imageSourceBytes (bytes : list Byte.byte)
| imageSourceUrl (url : string).

(** Modelled from the spec: the items of a tool result, whose SDK
    declarations are not among the sources, are each either structured JSON
    (they have a [json] property) or plain text. *)
Inductive ToolResultContent : Type :=
| ResultJson (json : Value)
| ResultText (text : string).

(** Modelled from the spec: the SDK's content blocks, whose declarations
    are not among the sources, are text, image, tool-use and tool-result
    blocks; [CachePointBlock] stands for the blocks without a [text]
    property that may occur in a system prompt, which match none of the
    [instanceof] tests of the formatter. *)
Inductive ContentBlock : Type :=
| TextBlock (text : string)
| ImageBlock (format : string) (source : ImageSource)
| ToolUseBlock (name : string) (toolUseId : string) (input : Value)
| ToolResultBlock (toolUseId : string) (status : string)
                  (content : list ToolResultContent)
| CachePointBlock.

Record Message : Type := mkMessage {
  msg_role : string;
  msg_content : list ContentBlock
}.

Inductive SystemPrompt : Type :=
| PromptString (s : string)
| PromptBlocks (blocks : list ContentBlock).

Record ToolSpec : Type := mkToolSpec {
  spec_name : string;
  spec_description : string;
  spec_inputSchema : Value
}.

Record StreamOptions : Type := mkStreamOptions {
  systemPrompt : option SystemPrompt;
  toolSpecs : option (list ToolSpec)
}.

(** ** The provider configuration *)

Inductive KeepAlive : Type :=
| KeepAliveString (s : string)
| KeepAliveNumber (n : number).

Record OllamaModelConfig : Type := mkConfig {
  modelId : string;
  host : option string;
  temperature : option number;
  maxTokens : option number;
  topP : option number;
  stopSequences : option (list string);
  keepAlive : option KeepAlive;
  options : option (gmap string Value);
  params : option (gmap string Value)
}.

(** ** [_formatRequest] *)

Definition push {A} (arr : list A) (x : A) : list A := arr ++ [x].

(** [if (systemPrompt)]: [undefined] and the empty string are falsy, every
    array is truthy. *)
Definition truthyPrompt (p : option SystemPrompt) : bool :=
  match p with
  | None => false
  | Some (PromptString s) => negb (String.eqb s "")
  | Some (PromptBlocks _) => true
  end.

(** ["text" in b ? b.text : ""] *)
Definition blockText (b : ContentBlock) : string :=
  match b with
  | TextBlock text => text
  | _ => ""
  end.

Definition systemContent (p : SystemPrompt) : string :=
  match p with
  | PromptString s => s
  | PromptBlocks blocks => String.concat "" (map blockText blocks)
  end.

(** ["json" in result ? JSON.stringify(result.json) : result.text] *)
Definition resultContent (result : ToolResultContent) : string :=
  match result with
  | ResultJson json => JSON_stringify json
  | ResultText text => text
  end.

(** [for (const result of block.content)] *)
Fixpoint forResults (formattedMessages : list Value)
         (results : list ToolResultContent) : list Value :=
  match results with
  | [] => formattedMessages
  | result :: rest =>
      forResults
        (push formattedMessages
              (VObject (literal [("role", VString "tool");
                                 ("content", VString (resultContent result))])))
        rest
  end.

(** The body of the loop over the blocks of one message. *)
Definition formatBlock (formattedMessages : list Value) (role : string)
           (block : ContentBlock) : list Value :=
  match block with
  | TextBlock text =>
      push formattedMessages
           (VObject (literal [("role", VString role); ("content", VString text)]))
  | ImageBlock _ (imageSourceBytes bytes) =>
      push formattedMessages
           (VObject (literal [("role", VString role);
                              ("images", VArray [VBytes bytes])]))
  | ImageBlock _ _ => formattedMessages
  | ToolUseBlock name _ input =>
      push formattedMessages
           (VObject (literal
              [("role", VString role);
               ("tool_calls",
                VArray [VObject (literal
                  [("function",
                    VObject (literal [("name", VString name);
                                      ("arguments", input)]))])])]))
  | ToolResultBlock _ _ content => forResults formattedMessages content
  | CachePointBlock => formattedMessages
  end.

(** [for (const block of msg.content)] *)
Fixpoint forBlocks (formattedMessages : list Value) (role : string)
         (blocks : list ContentBlock) : list Value :=
  match blocks with
  | [] => formattedMessages
  | block :: rest => forBlocks (formatBlock formattedMessages role block) role rest
  end.

(** [for (const msg of messages)] *)
Fixpoint forMessages (formattedMessages : list Value)
         (messages : list Message) : list Value :=
  match messages with
  | [] => formattedMessages
  | msg :: rest =>
      forMessages (forBlocks formattedMessages (msg_role msg) (msg_content msg)) rest
  end.

(** [options?.systemPrompt] *)
Definition promptOf (opts : option StreamOptions) : option SystemPrompt :=
  match opts with
  | Some o => systemPrompt o
  | None => None
  end.

(** The value of the local [formattedMessages] when [_formatRequest]
    reaches its [return]. *)
Definition formatMessages (messages : list Message)
           (opts : option StreamOptions) : list Value :=
  let formattedMessages := [] in
  let formattedMessages :=
    match promptOf opts with
    | Some prompt =>
        if truthyPrompt (Some prompt)
        then push formattedMessages
                  (VObject (literal [("role", VString "system");
                                     ("content", VString (systemContent prompt))]))
        else formattedMessages
    | None => formattedMessages
    end in
  forMessages formattedMessages messages.

Definition formatTool (spec : ToolSpec) : Value :=
  VObject (literal
    [("type", VString "function");
     ("function",
      VObject (literal [("name", VString (spec_name spec));
                        ("description", VString (spec_description spec));
                        ("parameters", spec_inputSchema spec)]))]).

(** [options?.toolSpecs?.map(...)] *)
Definition formatTools (opts : option StreamOptions) : Value :=
  match opts with
  | Some o => optional (fun specs => VArray (map formatTool specs)) (toolSpecs o)
  | None => VUndefined
  end.

Definition keepAliveValue (k : KeepAlive) : Value :=
  match k with
  | KeepAliveString s => VString s
  | KeepAliveNumber n => VNumber n
  end.

(** The [options] object of the request: the mapped sampling parameters
    with the config's [options] bag spread over them. *)
Definition samplingOptions (config : OllamaModelConfig) : gmap string Value :=
  orEmpty (options config) ∪
  literal [("temperature", optional VNumber (temperature config));
           ("num_predict", optional VNumber (maxTokens config));
           ("top_p", optional VNumber (topP config));
           ("stop", optional (fun l => VArray (map VString l)) (stopSequences config))].

(** The fields of the returned literal that precede the spread of [params]. *)
Definition mappedFields (config : OllamaModelConfig) (messages : list Message)
           (opts : option StreamOptions) : gmap string Value :=
  literal [("model", VString (modelId config));
           ("messages", VArray (formatMessages messages opts));
           ("stream", VBool true);
           ("options", VObject (samplingOptions config));
           ("keep_alive", optional keepAliveValue (keepAlive config));
           ("tools", formatTools opts)].

(** The spread [...(this._config.params || {})] comes last in the literal:
    its keys win over the fields written before it. *)
Definition _formatRequest (config : OllamaModelConfig) (messages : list Message)
           (opts : option StreamOptions) : gmap string Value :=
  orEmpty (params config) ∪ mappedFields config messages opts.

(** ** Wire response chunks *)

Record ToolCall : Type := mkToolCall {
  fn_name : string;
  fn_arguments : Value
}.

Record ChatMessage : Type := mkChatMessage {
  content : option string;
  tool_calls : option (list ToolCall)
}.

(** Modelled from the spec: a chunk of the client's response, whose
    declaration is not among the sources, has an optional text delta, an
    optional list of tool-call descriptors, a done flag and optional token
    counts. Token counts are integers on the wire; on them [+] is the
    addition of [Z] (within the range in which JavaScript numbers are
    exact). *)
Record ChatResponse : Type := mkChunk {
  message : option ChatMessage;
  done : bool;
  prompt_eval_count : option Z;
  eval_count : option Z
}.

(** ** The SDK's stream events *)

Inductive Delta : Type :=
| textDelta (text : string)
| toolUseInputDelta (input : string).

Inductive StopReason : Type :=
| toolUse
| endTurn.

Record Usage : Type := mkUsage {
  inputTokens : Z;
  outputTokens : Z;
  totalTokens : Z
}.

Inductive ModelStreamEvent : Type :=
| modelMessageStartEvent (role : string)
| modelContentBlockStartEvent (toolUseId : string) (name : string)
| modelContentBlockDeltaEvent (delta : Delta)
| modelContentBlockStopEvent
| modelMetadataEvent (usage : Usage)
| modelMessageStopEvent (stopReason : StopReason).

(** ** The transport and the logger *)

(** Whatever the client throws. *)
Variable Error : Type.

(** How the async iteration over the response ends: the iterator is
    exhausted, or it throws. *)
Inductive StreamEnd : Type :=
| Exhausted
| Broken (error : Error).

(** What [await client.chat(request)] does: it rejects, or it resolves to an
    iterator that delivers [chunks] and then ends. *)
Inductive ChatResult : Type :=
| Rejected (error : Error)
| Streaming (chunks : list ChatResponse) (ending : StreamEnd).

Inductive Completion : Type :=
| Returned
| Threw (error : Error).

(** One run of the generator, pulled until it finishes. [errorLog] lists the
    calls on [logger.error], each with its two arguments. *)
Record Run : Type := mkRun {
  sent : gmap string Value;
  events : list ModelStreamEvent;
  errorLog : list (string * Error);
  completion : Completion
}.

(** ** [stream] *)

(** The rendering [Math.random().toString(36)] of the [k]-th draw of a run. *)
Variable Math_random_base36 : nat -> string.

(** [`call_${Math.random().toString(36).substring(2, 9)}`] at the [k]-th draw. *)
Definition newToolUseId (k : nat) : string :=
  String.append "call_" (String.substring 2 7 (Math_random_base36 k)).

(** The mutable state of the loop: the local [toolRequested] and the number
    of draws taken from [Math.random] so far. *)
Record LoopState : Type := mkLoopState {
  toolRequested : bool;
  randomDraws : nat
}.

(** [x || 0] *)
Definition orZero (x : option Z) : Z :=
  match x with
  | Some n => if (n =? 0)%Z then 0%Z else n
  | None => 0%Z
  end.

(** [if (chunk.message?.content)]: the empty string is falsy. *)
Definition textEvents (chunk : ChatResponse) : list ModelStreamEvent :=
  match message chunk with
  | Some m =>
      match content m with
      | Some text =>
          if String.eqb text "" then []
          else [modelContentBlockDeltaEvent (textDelta text)]
      | None => []
      end
  | None => []
  end.

(** [chunk.message?.tool_calls] *)
Definition toolCallsOf (chunk : ChatResponse) : option (list ToolCall) :=
  match message chunk with
  | Some m => tool_calls m
  | None => None
  end.

(** [for (const tc of chunk.message.tool_calls)] *)
Fixpoint forToolCalls (st : LoopState) (calls : list ToolCall)
  : list ModelStreamEvent * LoopState :=
  match calls with
  | [] => ([], st)
  | tc :: rest =>
      let st1 := mkLoopState true (S (randomDraws st)) in
      let (later, st2) := forToolCalls st1 rest in
      (modelContentBlockStartEvent (newToolUseId (randomDraws st)) (fn_name tc)
       :: modelContentBlockDeltaEvent
            (toolUseInputDelta (JSON_stringify (fn_arguments tc)))
       :: modelContentBlockStopEvent
       :: later, st2)
  end.

(** [if (chunk.done)] *)
Definition doneEvents (requested : bool) (chunk : ChatResponse)
  : list ModelStreamEvent :=
  if done chunk then
    match prompt_eval_count chunk with
    | Some prompt =>
        [modelMetadataEvent
           (mkUsage prompt (orZero (eval_count chunk))
                    (orZero (Some prompt) + orZero (eval_count chunk))%Z)]
    | None => []
    end
    ++ [modelMessageStopEvent (if requested then toolUse else endTurn)]
  else [].

(** The body of [for await (const chunk of response)]. *)
Definition loopBody (st : LoopState) (chunk : ChatResponse)
  : list ModelStreamEvent * LoopState :=
  let (called, st1) :=
    match toolCallsOf chunk with
    | Some calls => forToolCalls st calls
    | None => ([], st)
    end in
  (textEvents chunk ++ called ++ doneEvents (toolRequested st1) chunk, st1).

Fixpoint forAwait (st : LoopState) (chunks : list ChatResponse)
  : list ModelStreamEvent * LoopState :=
  match chunks with
  | [] => ([], st)
  | chunk :: rest =>
      let (now, st1) := loopBody st chunk in
      let (later, st2) := forAwait st1 rest in
      (now ++ later, st2)
  end.

(** What the loop yields for [chunks], from [let toolRequested = false]. *)
Definition translated (chunks : list ChatResponse) : list ModelStreamEvent :=
  fst (forAwait (mkLoopState false 0) chunks).

(** [Ollama host request] is the behaviour of
    [new Ollama({ host }).chat(request)]. *)
Definition stream (Ollama : option string -> gmap string Value -> ChatResult)
           (config : OllamaModelConfig) (messages : list Message)
           (opts : option StreamOptions) : Run :=
  let request := _formatRequest config messages opts in
  let started := [modelMessageStartEvent "assistant"] in
  match Ollama (host config) request with
  | Rejected error =>
      mkRun request started [("Ollama Stream Error:", error)] (Threw error)
  | Streaming chunks ending =>
      let yielded := started ++ translated chunks in
      match ending with
      | Exhausted => mkRun request yielded [] Returned
      | Broken error =>
          mkRun request yielded [("Ollama Stream Error:", error)] (Threw error)
      end
  end.

End Provider.

Arguments VUndefined {number}.
Arguments VNull {number}.
Arguments VBool {number} b.
Arguments VNumber {number} n.
Arguments VString {number} s.
Arguments VBytes {number} bytes.
Arguments VArray {number} items.
Arguments VObject {number} fields.
Arguments literal {number} fields.
Arguments orEmpty {number} bag.
Arguments ResultJson {number} json.
Arguments ResultText {number} text.
Arguments TextBlock {number} text.
Arguments ImageBlock {number} format source.
Arguments ToolUseBlock {number} name toolUseId input.
Arguments ToolResultBlock {number} toolUseId status content.
Arguments CachePointBlock {number}.
Arguments mkMessage {number} msg_role msg_content.
Arguments msg_role {number} m.
Arguments msg_content {number} m.
Arguments PromptString {number} s.
Arguments PromptBlocks {number} blocks.
Arguments mkToolSpec {number} spec_name spec_description spec_inputSchema.
Arguments mkStreamOptions {number} systemPrompt toolSpecs.
Arguments systemPrompt {number} s.
Arguments toolSpecs {number} s.
Arguments KeepAliveString {number} s.
Arguments KeepAliveNumber {number} n.
Arguments mkConfig {number}.
Arguments modelId {number} o.
Arguments host {number} o.
Arguments options {number} o.
Arguments params {number} o.
Arguments push {A} arr x.
Arguments truthyPrompt {number} p.
Arguments blockText {number} b.
Arguments systemContent {number} p.
Arguments resultContent {number} JSON_stringify result.
Arguments forResults {number} JSON_stringify formattedMessages results.
Arguments formatBlock {number} JSON_stringify formattedMessages role block.
Arguments forBlocks {number} JSON_stringify formattedMessages role blocks.
Arguments forMessages {number} JSON_stringify formattedMessages messages.
Arguments promptOf {number} opts.
Arguments formatMessages {number} JSON_stringify messages opts.
Arguments formatTools {number} opts.
Arguments samplingOptions {number} config.
Arguments mappedFields {number} JSON_stringify config messages opts.
Arguments _formatRequest {number} JSON_stringify config messages opts.
Arguments mkToolCall {number} fn_name fn_arguments.
Arguments fn_name {number} t.
Arguments fn_arguments {number} t.
Arguments mkChatMessage {number} content tool_calls.
Arguments content {number} c.
Arguments tool_calls {number} c.
Arguments mkChunk {number} message done prompt_eval_count eval_count.
Arguments message {number} c.
Arguments done {number} c.
Arguments prompt_eval_count {number} c.
Arguments eval_count {number} c.
Arguments Exhausted {Error}.
Arguments Broken {Error} error.
Arguments Rejected {number Error} error.
Arguments Streaming {number Error} chunks ending.
Arguments Returned {Error}.
Arguments Threw {Error} error.
Arguments mkRun {number Error} sent events errorLog completion.
Arguments sent {number Error} r.
Arguments events {number Error} r.
Arguments errorLog {number Error} r.
Arguments completion {number Error} r.
Arguments textEvents {number} chunk.
Arguments toolCallsOf {number} chunk.
Arguments forToolCalls {number} JSON_stringify Math_random_base36 st calls.
Arguments doneEvents {number} requested chunk.
Arguments loopBody {number} JSON_stringify Math_random_base36 st chunk.
Arguments forAwait {number} JSON_stringify Math_random_base36 st chunks.
Arguments translated {number} JSON_stringify Math_random_base36 chunks.
Arguments stream {number} JSON_stringify {Error} Math_random_base36 Ollama config messages opts.

(** ** Observations on conversations and event sequences *)

(** The text of a text-bearing block. *)
Definition textOf {number} (b : ContentBlock number) : option string :=
  match b with
  | TextBlock text => Some text
  | _ => None
  end.

(** A block with its tool-use identifier blanked. *)
Definition eraseToolUseId {number} (b : ContentBlock number) : ContentBlock number :=
  match b with
  | ToolUseBlock name _ input => ToolUseBlock name "" input
  | ToolResultBlock _ status results => ToolResultBlock "" status results
  | other => other
  end.

Definition eraseIds {number} (m : Message number) : Message number :=
  mkMessage (msg_role m) (map eraseToolUseId (msg_content m)).

Definition isMessageStart (e : ModelStreamEvent) : bool :=
  match e with
  | modelMessageStartEvent _ => true
  | _ => false
  end.

Definition isMessageStop (e : ModelStreamEvent) : bool :=
  match e with
  | modelMessageStopEvent _ => true
  | _ => false
  end.

Definition isMetadata (e : ModelStreamEvent) : bool :=
  match e with
  | modelMetadataEvent _ => true
  | _ => false
  end.

Definition occurrences (p : ModelStreamEvent -> bool)
           (evs : list ModelStreamEvent) : nat :=
  length (List.filter p evs).

(** One message-start, and it comes first. *)
Definition startsOnce (evs : list ModelStreamEvent) : Prop :=
  (exists rest, evs = modelMessageStartEvent "assistant" :: rest)
  /\ occurrences isMessageStart evs = 1.

(** One message-stop, and it comes last. *)
Definition stopsOnce (evs : list ModelStreamEvent) : Prop :=
  occurrences isMessageStop evs = 1
  /\ exists reason, last evs = Some (modelMessageStopEvent reason).

(** Every content-block-start is followed at once by one tool-input delta
    and one content-block-stop; neither of the latter two occurs elsewhere. *)
Fixpoint blocksSequenced (evs : list ModelStreamEvent) : bool :=
  match evs with
  | [] => true
  | modelContentBlockStartEvent _ _
    :: modelContentBlockDeltaEvent (toolUseInputDelta _)
    :: modelContentBlockStopEvent :: rest => blocksSequenced rest
  | modelContentBlockStartEvent _ _ :: _ => false
  | modelContentBlockDeltaEvent (toolUseInputDelta _) :: _ => false
  | modelContentBlockStopEvent :: _ => false
  | _ :: rest => blocksSequenced rest
  end.

(** The chunk carries at least one tool-call descriptor. *)
Definition hasDescriptor {number} (chunk : ChatResponse number) : bool :=
  match toolCallsOf chunk with
  | Some (_ :: _) => true
  | _ => false
  end.

Definition notDone {number} (chunk : ChatResponse number) : bool :=
  negb (done chunk).

(** The number of descriptors in a run of chunks. *)
Fixpoint descriptorCount {number} (chunks : list (ChatResponse number)) : nat :=
  match chunks with
  | [] => 0
  | chunk :: rest =>
      match toolCallsOf chunk with
      | Some calls => length calls
      | None => 0
      end + descriptorCount rest
  end.

(** An integer that a JavaScript number holds exactly. The sum of two such
    integers, computed on doubles, is their sum in [Z] whenever that sum is
    again such an integer; beyond this range the addition of doubles rounds
    and the [+] of the model is no longer that of the code. *)
Definition exactInteger (z : Z) : Prop := (Z.abs z <= 2 ^ 53)%Z.

(** ** Sample inputs *)

Module Sample.

(** A stand-in serializer, enough to tell values apart. *)
Definition stringify (v : Value Z) : string :=
  match v with
  | VNull => "null"
  | VBool true => "true"
  | VBool false => "false"
  | VString s => s
  | VArray _ => "[...]"
  | VObject _ => "{...}"
  | _ => "?"
  end.

Definition random36 (k : nat) : string :=
  match k with
  | 0 => "0.4fzyo82mvyr"
  | 1 => "0.k1x9q0c3ab7"
  | _ => "0.9d2m5hs7w1e"
  end.

Definition config : OllamaModelConfig Z :=
  mkConfig "llama3.2" None None None None None None None None.

Definition withParams (bag : gmap string (Value Z)) : OllamaModelConfig Z :=
  mkConfig "llama3.2" None None None None None None None (Some bag).

Definition hello : Message Z := mkMessage "user" [TextBlock "hello"].

Definition promptOptions (p : SystemPrompt Z) : StreamOptions Z :=
  mkStreamOptions (Some p) None.

Definition toolResults : list (ToolResultContent Z) :=
  [ResultText "3"; ResultJson (VBool true); ResultText "done"].

Definition counter : ToolCall Z :=
  mkToolCall "letter_counter" (VObject {[ "word" := VString "strawberry" ]}).

Definition textChunk (s : string) : ChatResponse Z :=
  mkChunk (Some (mkChatMessage (Some s) None)) false None None.

Definition callChunk (calls : list (ToolCall Z)) (finished : bool) : ChatResponse Z :=
  mkChunk (Some (mkChatMessage (Some "") (Some calls))) finished None None.

Definition doneChunk (prompt completion : option Z) : ChatResponse Z :=
  mkChunk (Some (mkChatMessage (Some "") None)) true prompt completion.

(** A client whose behaviour does not depend on the request. *)
Definition client (r : ChatResult Z string)
  : option string -> gmap string (Value Z) -> ChatResult Z string :=
  fun _ _ => r.

Definition run (r : ChatResult Z string) : Run Z string :=
  stream stringify random36 (client r) config [hello] None.

End Sample.

(** ** The provider object *)

Arguments temperature {number} o.
Arguments maxTokens {number} o.
Arguments topP {number} o.
Arguments stopSequences {number} o.
Arguments keepAlive {number} o.
Arguments optional {number A} inj x.
Arguments keepAliveValue {number} k.
Arguments formatTool {number} spec.

Section Object.

Variable number : Type.

(** A [Partial<OllamaModelConfig>]: for each key, [None] when the object
    has no such key and the value of the key otherwise; the value of a key
    that is optional in the full configuration may itself be [undefined],
    while a [modelId] that is present is a string, as the type of the
    updated configuration requires. *)
Record PartialConfig : Type := mkPartial {
  set_modelId : option string;
  set_host : option (option string);
  set_temperature : option (option number);
  set_maxTokens : option (option number);
  set_topP : option (option number);
  set_stopSequences : option (option (list string));
  set_keepAlive : option (option (KeepAlive number));
  set_options : option (option (gmap string (Value number)));
  set_params : option (option (gmap string (Value number)))
}.

(** The value of one key of [{ ...base, ...over }]. *)
Definition spread {A} (base : A) (over : option A) : A :=
  match over with
  | Some v => v
  | None => base
  end.

(** The state of an [OllamaModel]: its private [_config]. *)
Record OllamaModel : Type := mkModel {
  _config : OllamaModelConfig number
}.

(** [new OllamaModel(config)] *)
Definition newOllamaModel (config : OllamaModelConfig number) : OllamaModel :=
  mkModel config.

(** [this._config = { ...this._config, ...modelConfig }] *)
Definition updateConfig (this : OllamaModel) (modelConfig : PartialConfig)
  : OllamaModel :=
  mkModel
    (mkConfig
       (spread (modelId (_config this)) (set_modelId modelConfig))
       (spread (host (_config this)) (set_host modelConfig))
       (spread (temperature (_config this)) (set_temperature modelConfig))
       (spread (maxTokens (_config this)) (set_maxTokens modelConfig))
       (spread (topP (_config this)) (set_topP modelConfig))
       (spread (stopSequences (_config this)) (set_stopSequences modelConfig))
       (spread (keepAlive (_config this)) (set_keepAlive modelConfig))
       (spread (options (_config this)) (set_options modelConfig))
       (spread (params (_config this)) (set_params modelConfig))).

Definition getConfig (this : OllamaModel) : OllamaModelConfig number :=
  _config this.

(** One key of [{ ...first, ...second }] for two partial objects. *)
Definition spreadPartial {A} (first second : option A) : option A :=
  match second with
  | Some v => Some v
  | None => first
  end.

(** [{ ...first, ...second }] *)
Definition overlay (first second : PartialConfig) : PartialConfig :=
  mkPartial
    (spreadPartial (set_modelId first) (set_modelId second))
    (spreadPartial (set_host first) (set_host second))
    (spreadPartial (set_temperature first) (set_temperature second))
    (spreadPartial (set_maxTokens first) (set_maxTokens second))
    (spreadPartial (set_topP first) (set_topP second))
    (spreadPartial (set_stopSequences first) (set_stopSequences second))
    (spreadPartial (set_keepAlive first) (set_keepAlive second))
    (spreadPartial (set_options first) (set_options second))
    (spreadPartial (set_params first) (set_params second)).

End Object.

Arguments mkPartial {number}.
Arguments set_modelId {number} p.
Arguments set_options {number} p.
Arguments set_params {number} p.
Arguments mkModel {number} _config.
Arguments _config {number} o.
Arguments newOllamaModel {number} config.
Arguments updateConfig {number} this modelConfig.
Arguments getConfig {number} this.
Arguments overlay {number} first second.

(** ** Further observations *)

(** The number of messages one block contributes. *)
Definition blockMessages {number} (b : ContentBlock number) : nat :=
  match b with
  | TextBlock _ => 1
  | ImageBlock _ (imageSourceBytes _) => 1
  | ImageBlock _ _ => 0
  | ToolUseBlock _ _ _ => 1
  | ToolResultBlock _ _ items => length items
  | CachePointBlock => 0
  end.

Definition conversationMessages {number} (messages : list (Message number)) : nat :=
  sum_list (map (fun m => sum_list (map blockMessages (msg_content m))) messages).

(** The message with the blocks that contribute nothing removed. *)
Definition withoutSkipped {number} (m : Message number) : Message number :=
  mkMessage (msg_role m)
            (List.filter (fun b => negb (Nat.eqb (blockMessages b) 0)) (msg_content m)).

(** An object with a [role] among [roles] and exactly one more key, which
    is [content], [images] or [tool_calls]. *)
Definition wireMessage {number} (roles : list string) (v : Value number) : Prop :=
  exists role key payload,
    v = VObject (literal [("role", VString role); (key, payload)])
    /\ key ∈ ["content"; "images"; "tool_calls"]
    /\ role ∈ roles.

Definition isBlockStart (e : ModelStreamEvent) : bool :=
  match e with
  | modelContentBlockStartEvent _ _ => true
  | _ => false
  end.

Definition isToolInput (e : ModelStreamEvent) : bool :=
  match e with
  | modelContentBlockDeltaEvent (toolUseInputDelta _) => true
  | _ => false
  end.

Definition isBlockStop (e : ModelStreamEvent) : bool :=
  match e with
  | modelContentBlockStopEvent => true
  | _ => false
  end.

Definition textOfEvent (e : ModelStreamEvent) : option string :=
  match e with
  | modelContentBlockDeltaEvent (textDelta text) => Some text
  | _ => None
  end.

Definition idOfEvent (e : ModelStreamEvent) : option string :=
  match e with
  | modelContentBlockStartEvent id _ => Some id
  | _ => None
  end.


(** The text a chunk carries, empty when it carries none. *)
Definition chunkContent {number} (chunk : ChatResponse number) : string :=
  match message chunk with
  | Some m =>
      match content m with
      | Some text => text
      | None => ""
      end
  | None => ""
  end.

(** A done chunk with a prompt token count. *)
Definition metered {number} (chunk : ChatResponse number) : bool :=
  match prompt_eval_count chunk with
  | Some _ => done chunk
  | None => false
  end.

(** A chunk without text, without descriptors and not marked done. *)
Definition silent {number} (chunk : ChatResponse number) : bool :=
  String.eqb (chunkContent chunk) "" && negb (hasDescriptor chunk)
  && negb (done chunk).

(** ** The letter counter tool of the agent (src/agent.ts) *)

Module LetterCounter.

Section Tool.

(** A JavaScript string is the list of the items that iterating over it
    yields (its code points). The refinement of the input schema is checked
    by the SDK before the callback is called; the callback does not rely on
    it. *)
Context {item : Type} `{EqDecision item}.

(** The host's [String.prototype.toLowerCase]. *)
Variable toLowerCase : list item -> list item.

(** The items of a literal part of the template, and of [String(count)]. *)
Variable quoted : string -> list item.
Variable decimal : nat -> list item.

(** [for (const char of lowerWord) { if (char === lowerLetter) count++ }] *)
Fixpoint forChars (lowerLetter : list item) (count : nat) (lowerWord : list item)
  : nat :=
  match lowerWord with
  | [] => count
  | char :: rest =>
      forChars lowerLetter
               (if decide ([char] = lowerLetter) then S count else count) rest
  end.

(** The value of [count] after the loop. *)
Definition counted (word letter : list item) : nat :=
  let lowerWord := toLowerCase word in
  let lowerLetter := toLowerCase letter in
  forChars lowerLetter 0 lowerWord.

Definition callback (word letter : list item) : list item :=
  quoted "The letter '" ++ letter ++ quoted "' appears "
  ++ decimal (counted word letter) ++ quoted " time(s) in '" ++ word ++ quoted "'".

End Tool.

End LetterCounter.

(** ** Further sample inputs *)

Module Cases.

(** The draw 0 at every call: [(0).toString(36)] is one character. *)
Definition zeroDraw (k : nat) : string := "0".

Definition withOptions (temp : option Z) (bag : gmap string (Value Z))
  : OllamaModelConfig Z :=
  mkConfig "llama3.2" None temp None None None None (Some bag) None.

(** ASCII strings as lists of their characters, and ASCII lower-casing. *)
Definition items (s : string) : list Ascii.ascii := list_ascii_of_string s.

Definition lowerChar (c : Ascii.ascii) : Ascii.ascii :=
  let n := Ascii.nat_of_ascii c in
  if (65 <=? n)%nat && (n <=? 90)%nat then Ascii.ascii_of_nat (n + 32) else c.

Definition lower (s : list Ascii.ascii) : list Ascii.ascii := map lowerChar s.

End Cases.

(** * Properties *)

Section Formatter.

Context {number : Type}.
Variable JSON_stringify : Value number -> string.

Implicit Types (acc : list (Value number)) (role : string).
Implicit Types (blocks : list (ContentBlock number)).
Implicit Types (messages : list (Message number)).
Implicit Types (opts : option (StreamOptions number)).
Implicit Types (config : OllamaModelConfig number).

(** *** Pushing onto the accumulator only ever extends it *)

Lemma forResults_spec acc (results : list (ToolResultContent number)) :
  forResults JSON_stringify acc results =
  acc ++ map (fun item =>
                VObject (literal
                  [("role", VString "tool");
                   ("content",
                    VString match item with
                            | ResultJson json => JSON_stringify json
                            | ResultText text => text
                            end)])) results.
Proof.
  revert acc; induction results as [|r rs IH]; intros acc; simpl.
  - by rewrite app_nil_r.
  - rewrite IH. unfold push. rewrite <- app_assoc. by destruct r.
Qed.

Lemma formatBlock_extends acc role (b : ContentBlock number) :
  formatBlock JSON_stringify acc role b =
  acc ++ formatBlock JSON_stringify [] role b.
Proof.
  destruct b as [text|fmt [bytes|url]|name id input|id status results|];
    simpl; unfold push; rewrite ?app_nil_r; try done.
  by rewrite !forResults_spec.
Qed.

Lemma forBlocks_extends acc role blocks :
  forBlocks JSON_stringify acc role blocks =
  acc ++ forBlocks JSON_stringify [] role blocks.
Proof.
  revert acc; induction blocks as [|b bs IH]; intros acc; simpl.
  - by rewrite app_nil_r.
  - rewrite IH, (IH (formatBlock _ [] _ _)), formatBlock_extends.
    by rewrite app_assoc.
Qed.

Lemma forBlocks_app acc role blocks blocks' :
  forBlocks JSON_stringify acc role (blocks ++ blocks') =
  forBlocks JSON_stringify (forBlocks JSON_stringify acc role blocks) role blocks'.
Proof. revert acc; induction blocks as [|b bs IH]; intros acc; simpl; auto. Qed.

Lemma forMessages_extends acc messages :
  forMessages JSON_stringify acc messages =
  acc ++ forMessages JSON_stringify [] messages.
Proof.
  revert acc; induction messages as [|m ms IH]; intros acc; simpl.
  - by rewrite app_nil_r.
  - rewrite IH, (IH (forBlocks _ [] _ _)), forBlocks_extends.
    by rewrite app_assoc.
Qed.

Lemma forMessages_app acc messages messages' :
  forMessages JSON_stringify acc (messages ++ messages') =
  forMessages JSON_stringify (forMessages JSON_stringify acc messages) messages'.
Proof. revert acc; induction messages as [|m ms IH]; intros acc; simpl; auto. Qed.

(** The request carries the formatted messages unless [params] has a
    [messages] key of its own. *)
Lemma request_messages config messages opts :
  orEmpty (params config) !! "messages" = None ->
  _formatRequest JSON_stringify config messages opts !! "messages" =
  Some (VArray (formatMessages JSON_stringify messages opts)).
Proof.
  intros Hfree. unfold _formatRequest.
  rewrite lookup_union_r by assumption. reflexivity.
Qed.

(** C6, as amended. A tool-result block with N result items contributes
    exactly N messages to the list the formatter builds, at the block's
    place in the conversation: one per item and in the order of the items,
    each with role [tool] and with the stringified JSON of a structured
    item, or the text of a text item, as its content. That list is the
    [messages] of the request whenever [params] has no [messages] key. *)
Theorem tool_result_flattened
        config (earlier later : list (Message number)) role
        (before after : list (ContentBlock number))
        (id status : string) (items : list (ToolResultContent number)) opts :
  let conversation :=
    earlier ++ mkMessage role (before ++ ToolResultBlock id status items :: after)
            :: later in
  let flattened :=
    map (fun item =>
           VObject (literal
             [("role", VString "tool");
              ("content",
               VString match item with
                       | ResultJson json => JSON_stringify json
                       | ResultText text => text
                       end)])) items in
  let built :=
    formatMessages JSON_stringify (earlier ++ [mkMessage role before]) opts
    ++ flattened
    ++ forMessages JSON_stringify [] (mkMessage role after :: later) in
  formatMessages JSON_stringify conversation opts = built
  /\ length flattened = length items
  /\ (orEmpty (params config) !! "messages" = None ->
      _formatRequest JSON_stringify config conversation opts !! "messages"
      = Some (VArray built)).
Proof.
  intros conversation flattened built.
  assert (Hbuilt : formatMessages JSON_stringify conversation opts = built).
  { subst conversation built. unfold formatMessages.
    set (init := match promptOf opts with Some _ => _ | None => _ end).
    rewrite !forMessages_app. simpl.
    rewrite forBlocks_app. simpl.
    rewrite forResults_spec.
    rewrite forMessages_extends, forBlocks_extends.
    rewrite (forMessages_extends (forBlocks _ [] _ after)).
    fold flattened. by rewrite <- !app_assoc. }
  split; [exact Hbuilt|]. split; [apply length_map|].
  intros Hfree. by rewrite request_messages, Hbuilt.
Qed.

(** *** The system prompt *)

Lemma append_empty_r (s : string) : String.append s "" = s.
Proof.
  induction s as [|c s IH]; [reflexivity|].
  change (String c (String.append s "") = String c s). by rewrite IH.
Qed.

Lemma append_empty_l (s : string) : String.append "" s = s.
Proof. reflexivity. Qed.

Lemma concat_no_separator (l : list string) :
  String.concat "" l = fold_right String.append "" l.
Proof.
  induction l as [|x l IH]; [done|].
  simpl. destruct l as [|y l].
  - by rewrite append_empty_r.
  - by rewrite IH, append_empty_l.
Qed.

Lemma systemContent_blocks blocks :
  systemContent (PromptBlocks blocks) =
  fold_right String.append "" (omap textOf blocks).
Proof.
  unfold systemContent. rewrite concat_no_separator.
  induction blocks as [|b bs IH]; [done|].
  destruct b; simpl; rewrite IH, ?append_empty_l; reflexivity.
Qed.

Lemma formatMessages_truthy messages (o : StreamOptions number) prompt :
  systemPrompt o = Some prompt ->
  truthyPrompt (Some prompt) = true ->
  formatMessages JSON_stringify messages (Some o) =
  VObject (literal [("role", VString "system");
                    ("content", VString (systemContent prompt))])
  :: forMessages JSON_stringify [] messages.
Proof.
  intros Hprompt Htruthy. unfold formatMessages. simpl promptOf.
  rewrite Hprompt, Htruthy. unfold push. simpl app.
  by rewrite forMessages_extends.
Qed.

Lemma formatMessages_falsy messages opts :
  truthyPrompt (promptOf opts) = false ->
  formatMessages JSON_stringify messages opts =
  forMessages JSON_stringify [] messages.
Proof.
  intros Hfalsy. unfold formatMessages.
  destruct (promptOf opts) as [prompt|]; [|done].
  by rewrite Hfalsy.
Qed.

(** C7, as amended. When the options carry a truthy system prompt (a
    non-empty string, or any block sequence), the first message the
    formatter builds has role [system]; its content is the prompt string
    itself, or the texts of the text-bearing blocks of the sequence
    appended in order with nothing between them. That message is the first
    of the request's [messages] whenever [params] has no [messages] key. *)
Theorem system_prompt_first
        config messages (o : StreamOptions number) (prompt : SystemPrompt number) :
  systemPrompt o = Some prompt ->
  truthyPrompt (Some prompt) = true ->
  let system :=
    VObject (literal
      [("role", VString "system");
       ("content",
        VString match prompt with
                | PromptString s => s
                | PromptBlocks blocks =>
                    fold_right String.append "" (omap textOf blocks)
                end)]) in
  let rest := forMessages JSON_stringify [] messages in
  formatMessages JSON_stringify messages (Some o) = system :: rest
  /\ (orEmpty (params config) !! "messages" = None ->
      _formatRequest JSON_stringify config messages (Some o) !! "messages"
      = Some (VArray (system :: rest))).
Proof.
  intros Hprompt Htruthy system rest.
  assert (Hlist : formatMessages JSON_stringify messages (Some o) = system :: rest).
  { rewrite (formatMessages_truthy _ _ _ Hprompt Htruthy).
    subst system rest. destruct prompt as [s|blocks]; [done|].
    by rewrite systemContent_blocks. }
  split; [exact Hlist|].
  intros Hfree. by rewrite request_messages, Hlist.
Qed.

(** C10. A falsy system prompt (the empty string, or none) adds no system
    message: the formatted messages, and the whole request, are those
    obtained when the options carry no system prompt, and the messages are
    those obtained without options. *)
Theorem falsy_prompt_ignored config messages (o : StreamOptions number) :
  truthyPrompt (systemPrompt o) = false ->
  let bare := Some (mkStreamOptions None (toolSpecs o)) in
  formatMessages JSON_stringify messages (Some o)
  = formatMessages JSON_stringify messages bare
  /\ formatMessages JSON_stringify messages (Some o)
     = formatMessages JSON_stringify messages None
  /\ _formatRequest JSON_stringify config messages (Some o)
     = _formatRequest JSON_stringify config messages bare.
Proof.
  intros Hfalsy bare.
  assert (Hsame : formatMessages JSON_stringify messages (Some o)
                  = formatMessages JSON_stringify messages bare).
  { by rewrite !formatMessages_falsy. }
  split; [exact Hsame|]. split.
  - by rewrite !formatMessages_falsy.
  - unfold _formatRequest, mappedFields. by rewrite Hsame.
Qed.

(** *** The [params] bag *)

(** C3, as amended. The [params] bag is merged over the whole request last:
    a key of the bag has the bag's value in the request, every other key has
    the value of the mapped field, and so [stream] is [true] in every
    request whose bag has no [stream] key. *)
Theorem params_merged_last config messages opts :
  let request := _formatRequest JSON_stringify config messages opts in
  let bag := orEmpty (params config) in
  (forall key value, bag !! key = Some value -> request !! key = Some value)
  /\ (forall key, bag !! key = None ->
        request !! key = mappedFields JSON_stringify config messages opts !! key)
  /\ (bag !! "stream" = None -> request !! "stream" = Some (VBool true)).
Proof.
  intros request bag. subst request. unfold _formatRequest. fold bag.
  split; [|split].
  - intros key value Hbag. by apply lookup_union_Some_l.
  - intros key Hfree. by apply lookup_union_r.
  - intros Hfree. by rewrite lookup_union_r.
Qed.

(** *** Tool-use identifiers do not reach the request *)

Lemma formatBlock_erase acc role (b : ContentBlock number) :
  formatBlock JSON_stringify acc role (eraseToolUseId b) =
  formatBlock JSON_stringify acc role b.
Proof. by destruct b. Qed.

Lemma forBlocks_erase acc role blocks :
  forBlocks JSON_stringify acc role (map eraseToolUseId blocks) =
  forBlocks JSON_stringify acc role blocks.
Proof.
  revert acc; induction blocks as [|b bs IH]; intros acc; [done|].
  simpl. by rewrite formatBlock_erase, IH.
Qed.

Lemma forMessages_erase acc messages :
  forMessages JSON_stringify acc (map eraseIds messages) =
  forMessages JSON_stringify acc messages.
Proof.
  revert acc; induction messages as [|m ms IH]; intros acc; [done|].
  simpl. by rewrite forBlocks_erase, IH.
Qed.

Lemma formatRequest_erase config messages messages' opts :
  map eraseIds messages = map eraseIds messages' ->
  _formatRequest JSON_stringify config messages opts =
  _formatRequest JSON_stringify config messages' opts.
Proof.
  intros Hsame. unfold _formatRequest, mappedFields, formatMessages.
  by rewrite <- (forMessages_erase _ messages), Hsame, forMessages_erase.
Qed.

End Formatter.

Section Translator.

Context {number Error : Type}.
Variable JSON_stringify : Value number -> string.
Variable Math_random_base36 : nat -> string.

Implicit Types (st : LoopState) (chunk : ChatResponse number).
Implicit Types (chunks : list (ChatResponse number)).
Implicit Types (calls : list (ToolCall number)).
Implicit Types (evs : list ModelStreamEvent).

Local Abbreviation forToolCalls' := (forToolCalls JSON_stringify Math_random_base36).
Local Abbreviation loopBody' := (loopBody JSON_stringify Math_random_base36).
Local Abbreviation forAwait' := (forAwait JSON_stringify Math_random_base36).
Local Abbreviation stream' := (stream JSON_stringify (Error := Error) Math_random_base36).
Local Abbreviation request' := (_formatRequest JSON_stringify).
Local Abbreviation translated' := (translated JSON_stringify Math_random_base36).

(** The three events the loop yields for the descriptor [tc] when [k] draws
    have been taken before it. *)
Local Abbreviation blockOf k tc :=
  [modelContentBlockStartEvent (newToolUseId Math_random_base36 k) (fn_name tc);
   modelContentBlockDeltaEvent
     (toolUseInputDelta (JSON_stringify (fn_arguments tc)));
   modelContentBlockStopEvent].

(** *** The loop over the descriptors of a chunk *)

Lemma forToolCalls_events st calls :
  fst (forToolCalls' st calls) =
  concat (imap (fun i tc => blockOf (randomDraws st + i) tc) calls).
Proof.
  revert st; induction calls as [|tc rest IH]; intros st; [done|].
  simpl. specialize (IH (mkLoopState true (S (randomDraws st)))).
  destruct (forToolCalls' _ rest) as [later st2]. simpl in *.
  rewrite Nat.add_0_r, IH. do 4 f_equal.
  apply imap_ext. intros i x _. simpl. by rewrite Nat.add_succ_r.
Qed.

Lemma forToolCalls_state st calls :
  snd (forToolCalls' st calls) =
  match calls with
  | [] => st
  | _ :: _ => mkLoopState true (randomDraws st + length calls)
  end.
Proof.
  revert st; induction calls as [|tc rest IH]; intros st; [done|].
  simpl. specialize (IH (mkLoopState true (S (randomDraws st)))).
  destruct (forToolCalls' _ rest) as [later st2]. simpl in *.
  rewrite IH. destruct rest; simpl; f_equal; lia.
Qed.

(** *** One iteration of the loop over the chunks *)

Lemma loopBody_events st chunk :
  fst (loopBody' st chunk) =
  textEvents chunk
  ++ match toolCallsOf chunk with
     | Some calls => concat (imap (fun i tc => blockOf (randomDraws st + i) tc) calls)
     | None => []
     end
  ++ doneEvents (toolRequested st || hasDescriptor chunk) chunk.
Proof.
  unfold loopBody, hasDescriptor.
  destruct (toolCallsOf chunk) as [calls|]; simpl.
  - pose proof (forToolCalls_events st calls) as Hev.
    pose proof (forToolCalls_state st calls) as Hst.
    destruct (forToolCalls' st calls) as [called st1]. simpl in *. subst.
    destruct calls; simpl; [by rewrite orb_false_r|by rewrite orb_true_r].
  - by rewrite orb_false_r.
Qed.

Lemma loopBody_state st chunk :
  snd (loopBody' st chunk) =
  mkLoopState (toolRequested st || hasDescriptor chunk)
              (randomDraws st + descriptorCount [chunk]).
Proof.
  unfold loopBody, hasDescriptor. simpl.
  destruct (toolCallsOf chunk) as [calls|]; simpl.
  - pose proof (forToolCalls_state st calls) as Hst.
    destruct (forToolCalls' st calls) as [called st1]. simpl in *. subst.
    destruct calls, st; simpl; rewrite ?orb_false_r, ?orb_true_r, ?Nat.add_0_r;
      f_equal; lia.
  - destruct st; simpl. by rewrite orb_false_r, Nat.add_0_r.
Qed.

(** *** The loop over the chunks *)

Lemma forAwait_cons st chunk chunks :
  forAwait' st (chunk :: chunks) =
  (fst (loopBody' st chunk) ++ fst (forAwait' (snd (loopBody' st chunk)) chunks),
   snd (forAwait' (snd (loopBody' st chunk)) chunks)).
Proof.
  cbn [forAwait]. destruct (loopBody' st chunk) as [now st1]. cbn [fst snd].
  by destruct (forAwait' st1 chunks).
Qed.

Lemma forAwait_app st chunks chunks' :
  forAwait' st (chunks ++ chunks') =
  (fst (forAwait' st chunks) ++ fst (forAwait' (snd (forAwait' st chunks)) chunks'),
   snd (forAwait' (snd (forAwait' st chunks)) chunks')).
Proof.
  revert st; induction chunks as [|c cs IH]; intros st.
  - simpl. by destruct (forAwait' st chunks').
  - rewrite <- app_comm_cons, !forAwait_cons, IH. simpl. by rewrite app_assoc.
Qed.

Lemma forAwait_state st chunks :
  snd (forAwait' st chunks) =
  mkLoopState (toolRequested st || existsb hasDescriptor chunks)
              (randomDraws st + descriptorCount chunks).
Proof.
  revert st; induction chunks as [|c cs IH]; intros st.
  - destruct st; simpl. by rewrite orb_false_r, Nat.add_0_r.
  - rewrite forAwait_cons. simpl snd. rewrite IH, loopBody_state. simpl.
    rewrite orb_assoc. f_equal. lia.
Qed.

Lemma stream_events Ollama config messages opts chunks ending :
  Ollama (host config) (request' config messages opts) = Streaming chunks ending ->
  events (stream' Ollama config messages opts) =
  modelMessageStartEvent "assistant" :: translated' chunks.
Proof. intros Hchat. unfold stream. rewrite Hchat. by destruct ending. Qed.

Lemma descriptorCount_app chunks chunks' :
  descriptorCount (chunks ++ chunks') =
  descriptorCount chunks + descriptorCount chunks'.
Proof. induction chunks as [|c cs IH]; simpl; [done|]. rewrite IH. lia. Qed.

Lemma translated_split before chunk after :
  translated' (before ++ chunk :: after) =
  translated' before
  ++ (textEvents chunk
      ++ match toolCallsOf chunk with
         | Some calls =>
             concat (imap (fun i tc => blockOf (descriptorCount before + i) tc) calls)
         | None => []
         end
      ++ doneEvents (existsb hasDescriptor (before ++ [chunk])) chunk)
  ++ fst (forAwait' (mkLoopState (existsb hasDescriptor (before ++ [chunk]))
                                 (descriptorCount (before ++ [chunk]))) after).
Proof.
  unfold translated. rewrite forAwait_app, forAwait_cons. cbn [fst].
  rewrite !forAwait_state, loopBody_events, loopBody_state. cbn [toolRequested randomDraws].
  rewrite existsb_app, descriptorCount_app. simpl. by rewrite orb_false_r.
Qed.

Lemma translated_snoc before final :
  translated' (before ++ [final]) =
  translated' before
  ++ textEvents final
  ++ match toolCallsOf final with
     | Some calls =>
         concat (imap (fun i tc => blockOf (descriptorCount before + i) tc) calls)
     | None => []
     end
  ++ doneEvents (existsb hasDescriptor (before ++ [final])) final.
Proof. rewrite translated_split. simpl. by rewrite app_nil_r. Qed.

(** *** Counting events *)

Lemma occurrences_app p evs evs' :
  occurrences p (evs ++ evs') = occurrences p evs + occurrences p evs'.
Proof. unfold occurrences. by rewrite List.filter_app, length_app. Qed.

(** A predicate that holds of no content-block event. *)
Local Abbreviation messageLevel p :=
  ((forall d, p (modelContentBlockDeltaEvent d) = false)
   /\ (forall id name, p (modelContentBlockStartEvent id name) = false)
   /\ p modelContentBlockStopEvent = false).

Lemma blocks_quiet p k calls :
  messageLevel p ->
  occurrences p (concat (imap (fun i tc => blockOf (k + i) tc) calls)) = 0.
Proof.
  intros (Hdelta & Hstart & Hstop).
  revert k; induction calls as [|tc rest IH]; intros k; [done|].
  rewrite imap_cons, concat_cons, occurrences_app.
  erewrite imap_ext; [rewrite (IH (S k))|]; cycle 1.
  { intros i x _. simpl. by rewrite Nat.add_succ_r. }
  unfold occurrences. simpl. by rewrite Hdelta, Hstart, Hstop.
Qed.

Lemma textEvents_quiet p chunk :
  messageLevel p -> occurrences p (textEvents chunk) = 0.
Proof.
  intros (Hdelta & _). unfold textEvents.
  destruct (message chunk) as [m|]; [|done].
  destruct (content m) as [text|]; [|done].
  destruct (String.eqb text ""); [done|].
  unfold occurrences. simpl. by rewrite Hdelta.
Qed.

Lemma doneEvents_not_done requested chunk :
  done chunk = false -> doneEvents requested chunk = [].
Proof. intros Hdone. unfold doneEvents. by rewrite Hdone. Qed.

Lemma translated_quiet p chunks :
  messageLevel p ->
  forallb notDone chunks = true ->
  occurrences p (translated' chunks) = 0.
Proof.
  intros Hp. induction chunks as [|c cs IH] using rev_ind; [done|].
  rewrite forallb_app. simpl. unfold notDone at 2.
  intros [Hcs [Hc%negb_true_iff _]%andb_prop]%andb_prop.
  rewrite translated_snoc, !occurrences_app, IH, textEvents_quiet by done.
  rewrite doneEvents_not_done by done.
  destruct (toolCallsOf c); [by rewrite blocks_quiet|done].
Qed.

Lemma translated_no_start chunks :
  occurrences isMessageStart (translated' chunks) = 0.
Proof.
  induction chunks as [|c cs IH] using rev_ind; [done|].
  rewrite translated_snoc, !occurrences_app, IH, textEvents_quiet by done.
  assert (occurrences isMessageStart
            (doneEvents (existsb hasDescriptor (cs ++ [c])) c) = 0) as ->.
  { unfold doneEvents. destruct (done c); [|done].
    by destruct (prompt_eval_count c). }
  destruct (toolCallsOf c); [by rewrite blocks_quiet|done].
Qed.

Lemma orZero_spec (x : option Z) :
  orZero x = match x with Some n => n | None => 0%Z end.
Proof.
  destruct x as [n|]; [|done]. simpl.
  by destruct (Z.eqb_spec n 0) as [->|].
Qed.

(** *** Message framing *)

(** C1, as amended. A response stream that the transport completes yields
    exactly one message-start, before every other event. When the last chunk
    of the stream is its only chunk marked done, the run also yields exactly
    one message-stop, as its last event. *)
Theorem lifecycle_framed Ollama config messages opts chunks :
  Ollama (host config) (request' config messages opts) = Streaming chunks Exhausted ->
  let run := stream' Ollama config messages opts in
  completion run = Returned
  /\ startsOnce (events run)
  /\ (forall before final,
        chunks = before ++ [final] ->
        forallb notDone before = true ->
        done final = true ->
        stopsOnce (events run)).
Proof.
  intros Hchat run.
  assert (Hev : events run = modelMessageStartEvent "assistant" :: translated' chunks)
    by exact (stream_events _ _ _ _ _ _ Hchat).
  split; [|split].
  - subst run. unfold stream. by rewrite Hchat.
  - rewrite Hev. split; [by eexists|].
    change (S (occurrences isMessageStart (translated' chunks)) = 1).
    by rewrite translated_no_start.
  - intros before final -> Hbefore Hdone. rewrite Hev.
    rewrite translated_snoc. unfold doneEvents. rewrite Hdone.
    set (requested := existsb hasDescriptor (before ++ [final])).
    set (reason := if requested then toolUse else endTurn).
    set (called := match toolCallsOf final with Some _ => _ | None => _ end).
    set (usage := match prompt_eval_count final with Some _ => _ | None => _ end).
    assert (Hcalled : occurrences isMessageStop called = 0).
    { subst called. destruct (toolCallsOf final); [by rewrite blocks_quiet|done]. }
    assert (Husage : occurrences isMessageStop usage = 0).
    { subst usage. by destruct (prompt_eval_count final). }
    split.
    + change (occurrences isMessageStop
                (translated' before ++ textEvents final ++ called
                 ++ usage ++ [modelMessageStopEvent reason]) = 1).
      rewrite !occurrences_app, translated_quiet, textEvents_quiet by done.
      by rewrite Hcalled, Husage.
    + exists reason.
      rewrite app_comm_cons, !app_assoc. apply last_snoc.
Qed.

(** *** Tool-call blocks *)

Lemma blocksSequenced_app evs evs' :
  blocksSequenced evs = true ->
  blocksSequenced (evs ++ evs') = blocksSequenced evs'.
Proof.
  remember (length evs) as n eqn:Hn.
  revert evs Hn. induction n as [n IH] using lt_wf_ind. intros evs -> Hseq.
  destruct evs as [|e evs]; [done|].
  destruct e as [r|id name|[text|input]| | |reason]; simpl in *;
    try discriminate; try (by apply (IH (length evs)); [lia|..]).
  destruct evs as [|[r|id' name'|[text|input]| | |reason] evs]; try discriminate.
  destruct evs as [|[r|id' name'|[text|input']| | |reason] evs]; try discriminate.
  simpl in *. apply (IH (length evs)); [lia|done..].
Qed.

Lemma blocks_sequenced k calls :
  blocksSequenced (concat (imap (fun i tc => blockOf (k + i) tc) calls)) = true.
Proof.
  revert k; induction calls as [|tc rest IH]; intros k; [done|].
  rewrite imap_cons, concat_cons. simpl.
  erewrite imap_ext; [apply (IH (S k))|].
  intros i x _. simpl. by rewrite Nat.add_succ_r.
Qed.

Lemma textEvents_sequenced chunk : blocksSequenced (textEvents chunk) = true.
Proof.
  unfold textEvents. destruct (message chunk) as [m|]; [|done].
  destruct (content m) as [text|]; [|done].
  by destruct (String.eqb text "").
Qed.

Lemma doneEvents_sequenced requested chunk :
  blocksSequenced (doneEvents requested chunk) = true.
Proof.
  unfold doneEvents. destruct (done chunk); [|done].
  by destruct (prompt_eval_count chunk).
Qed.

Lemma translated_sequenced chunks : blocksSequenced (translated' chunks) = true.
Proof.
  induction chunks as [|c cs IH] using rev_ind; [done|].
  rewrite translated_snoc.
  rewrite blocksSequenced_app by done.
  rewrite blocksSequenced_app by apply textEvents_sequenced.
  rewrite blocksSequenced_app; [apply doneEvents_sequenced|].
  destruct (toolCallsOf c); [apply blocks_sequenced|done].
Qed.

(** C2. In every run of [stream], each content-block-start is followed at
    once by one tool-input delta and one content-block-stop, so that
    tool-call blocks never interleave. For a chunk that carries tool-call
    descriptors, the run yields, right after the chunk's text delta and for
    each descriptor in the order of the chunk, a content-block-start with a
    newly drawn identifier and the descriptor's function name, one delta with
    the serialized arguments, and one content-block-stop; the [i]-th
    descriptor of the chunk uses the draw that follows those of all earlier
    descriptors of the stream. *)
Theorem tool_call_blocks_in_order Ollama config messages opts :
  let run := stream' Ollama config messages opts in
  blocksSequenced (events run) = true
  /\ (forall before chunk after ending calls,
        Ollama (host config) (request' config messages opts)
        = Streaming (before ++ chunk :: after) ending ->
        toolCallsOf chunk = Some calls ->
        events run =
        (modelMessageStartEvent "assistant" :: translated' before ++ textEvents chunk)
        ++ concat (imap (fun i tc =>
             [modelContentBlockStartEvent
                (newToolUseId Math_random_base36 (descriptorCount before + i))
                (fn_name tc);
              modelContentBlockDeltaEvent
                (toolUseInputDelta (JSON_stringify (fn_arguments tc)));
              modelContentBlockStopEvent]) calls)
        ++ doneEvents (existsb hasDescriptor (before ++ [chunk])) chunk
        ++ fst (forAwait' (mkLoopState (existsb hasDescriptor (before ++ [chunk]))
                                       (descriptorCount (before ++ [chunk]))) after)).
Proof.
  intros run. split.
  - subst run. unfold stream.
    destruct (Ollama _ _) as [error|chunks ending]; [done|].
    assert (blocksSequenced
              (modelMessageStartEvent "assistant" :: translated' chunks) = true)
      by apply translated_sequenced.
    by destruct ending.
  - intros before chunk after ending calls Hchat Hcalls.
    subst run. rewrite (stream_events _ _ _ _ _ _ Hchat).
    rewrite translated_split, Hcalls. simpl. by rewrite <- !app_assoc.
Qed.

(** *** The terminal chunk *)

(** C4, as amended. In a response stream whose last chunk is its only chunk
    marked done, a metadata event is yielded exactly when that chunk carries
    a prompt token count. It is then the only metadata event and comes
    immediately before the message-stop; its input tokens are the prompt
    count of the last chunk and its output tokens the completion count of
    the last chunk, or 0 when that is absent. Its total tokens are their
    sum when the two counts and their sum are integers that a JavaScript
    number holds exactly (at most 2^53 in absolute value), the range in
    which the addition of the code is that of the integers. *)
Theorem usage_from_terminal_chunk Ollama config messages opts before final ending :
  Ollama (host config) (request' config messages opts)
  = Streaming (before ++ [final]) ending ->
  forallb notDone before = true ->
  done final = true ->
  let evs := events (stream' Ollama config messages opts) in
  match prompt_eval_count final with
  | Some prompt =>
      let completion := match eval_count final with Some n => n | None => 0%Z end in
      exists body reason total,
        evs = body ++ [modelMetadataEvent (mkUsage prompt completion total);
                       modelMessageStopEvent reason]
        /\ occurrences isMetadata body = 0
        /\ (exactInteger prompt -> exactInteger completion ->
            exactInteger (prompt + completion) ->
            total = (prompt + completion)%Z)
  | None => occurrences isMetadata evs = 0
  end.
Proof.
  intros Hchat Hbefore Hdone evs. subst evs.
  rewrite (stream_events _ _ _ _ _ _ Hchat), translated_snoc.
  unfold doneEvents. rewrite Hdone.
  set (requested := existsb hasDescriptor (before ++ [final])).
  set (called := match toolCallsOf final with Some _ => _ | None => _ end).
  assert (Hquiet : occurrences isMetadata
            (modelMessageStartEvent "assistant"
             :: translated' before ++ textEvents final ++ called) = 0).
  { change (occurrences isMetadata
              (translated' before ++ textEvents final ++ called) = 0).
    rewrite !occurrences_app, translated_quiet, textEvents_quiet by done.
    subst called. destruct (toolCallsOf final); [by rewrite blocks_quiet|done]. }
  destruct (prompt_eval_count final) as [prompt|].
  - rewrite !orZero_spec. eexists _, _, _. split; [|split; [exact Hquiet|]].
    + simpl. by rewrite <- !app_assoc.
    + reflexivity.
  - simpl app.
    change (occurrences isMetadata
              (translated' before ++ textEvents final ++ called
               ++ [modelMessageStopEvent (if requested then toolUse else endTurn)]) = 0).
    rewrite app_assoc, (app_assoc (translated' before ++ textEvents final)).
    rewrite occurrences_app, <- app_assoc. by rewrite (Hquiet : occurrences _ (_ ++ _) = 0).
Qed.

(** C5, as amended. When the last chunk of a response stream is marked done,
    the run ends with a message-stop whose stop reason is [toolUse] when some
    chunk of the stream, the done chunk included, carries at least one
    tool-call descriptor, and [endTurn] otherwise. *)
Theorem stop_reason_reflects_tool_calls
        Ollama config messages opts before final ending :
  Ollama (host config) (request' config messages opts)
  = Streaming (before ++ [final]) ending ->
  done final = true ->
  exists body,
    events (stream' Ollama config messages opts) =
    body ++ [modelMessageStopEvent
               (if existsb hasDescriptor (before ++ [final])
                then toolUse else endTurn)].
Proof.
  intros Hchat Hdone.
  rewrite (stream_events _ _ _ _ _ _ Hchat), translated_snoc.
  unfold doneEvents. rewrite Hdone.
  eexists. rewrite app_comm_cons, !app_assoc. reflexivity.
Qed.

(** *** Failure of the transport *)

(** C8. An error thrown when the stream is opened, or while it is iterated,
    is passed once to [logger.error] and thrown again as it is. The events
    yielded are the message-start alone when opening fails, and otherwise
    those that a run yields when the transport delivers the same chunks and
    then completes: no event stands for the error. *)
Theorem transport_error_logged_and_rethrown Ollama config messages opts error :
  let run := stream' Ollama config messages opts in
  (Ollama (host config) (request' config messages opts) = Rejected error ->
   events run = [modelMessageStartEvent "assistant"]
   /\ errorLog run = [("Ollama Stream Error:", error)]
   /\ completion run = Threw error)
  /\ (forall chunks,
        Ollama (host config) (request' config messages opts)
        = Streaming chunks (Broken error) ->
        let completed :=
          stream' (fun _ _ => Streaming chunks Exhausted) config messages opts in
        events run = events completed
        /\ errorLog completed = [] /\ completion completed = Returned
        /\ errorLog run = [("Ollama Stream Error:", error)]
        /\ completion run = Threw error).
Proof.
  intros run. subst run. split.
  - intros Hchat. unfold stream. by rewrite Hchat.
  - intros chunks Hchat. unfold stream. by rewrite Hchat.
Qed.

(** *** Identifiers and the request *)

Lemma stream_sent Ollama config messages opts :
  sent (stream' Ollama config messages opts) = request' config messages opts.
Proof.
  unfold stream. destruct (Ollama _ _) as [error|chunks [|error]]; reflexivity.
Qed.

End Translator.

(** C9. The request depends on nothing but the configuration, the options
    and the conversation with its tool-use identifiers blanked: two
    conversations that agree up to the identifiers of their tool-use and
    tool-result blocks are formatted into equal requests, and [stream] hands
    that same request to the client whatever the random draws and the
    client are. *)
Theorem formatting_deterministic
        {number Error : Type} (JSON_stringify : Value number -> string)
        (random random' : nat -> string)
        (Ollama Ollama' : option string -> gmap string (Value number)
                          -> ChatResult number Error)
        (config : OllamaModelConfig number)
        (messages messages' : list (Message number))
        (opts : option (StreamOptions number)) :
  map eraseIds messages = map eraseIds messages' ->
  _formatRequest JSON_stringify config messages opts
  = _formatRequest JSON_stringify config messages' opts
  /\ sent (stream JSON_stringify random Ollama config messages opts)
     = sent (stream JSON_stringify random' Ollama' config messages' opts).
Proof.
  intros Hsame.
  pose proof (formatRequest_erase JSON_stringify config _ _ opts Hsame) as Hreq.
  split; [exact Hreq|]. by rewrite !stream_sent.
Qed.

(** * The properties at sample inputs *)

Section Samples.

Import Sample.
Local Open Scope Z_scope.

(** C1 as stated fails. A transport that completes without a done chunk
    yields no message-stop; an event that follows the done chunk follows the
    message-stop; two done chunks yield two message-stops. *)
Lemma lifecycle_not_always_framed :
  completion (run (Streaming [] Exhausted)) = Returned
  /\ ~ stopsOnce (events (run (Streaming [] Exhausted)))
  /\ ~ stopsOnce (events (run (Streaming [doneChunk None None; textChunk "late"]
                                         Exhausted)))
  /\ ~ stopsOnce (events (run (Streaming [doneChunk None None; doneChunk None None]
                                         Exhausted))).
Proof.
  split; [reflexivity|]. split; [|split].
  - intros [Hcount _]. vm_compute in Hcount. discriminate.
  - intros [_ [reason Hlast]]. vm_compute in Hlast. discriminate.
  - intros [Hcount _]. vm_compute in Hcount. discriminate.
Qed.

Lemma lifecycle_framed_witness :
  startsOnce (events (run (Streaming [textChunk "Hi"; doneChunk None None] Exhausted)))
  /\ stopsOnce (events (run (Streaming [textChunk "Hi"; doneChunk None None] Exhausted))).
Proof.
  destruct (lifecycle_framed stringify random36
              (client (Streaming [textChunk "Hi"; doneChunk None None] Exhausted))
              config [hello] None _ eq_refl) as (_ & Hstart & Hstop).
  split; [exact Hstart|].
  apply (Hstop [textChunk "Hi"] (doneChunk None None)); reflexivity.
Defined.

Lemma tool_call_blocks_in_order_witness :
  events (run (Streaming [callChunk [counter; counter] false;
                          doneChunk (Some 10) (Some 5)] Exhausted))
  = [modelMessageStartEvent "assistant";
     modelContentBlockStartEvent "call_4fzyo82" "letter_counter";
     modelContentBlockDeltaEvent (toolUseInputDelta "{...}");
     modelContentBlockStopEvent;
     modelContentBlockStartEvent "call_k1x9q0c" "letter_counter";
     modelContentBlockDeltaEvent (toolUseInputDelta "{...}");
     modelContentBlockStopEvent;
     modelMetadataEvent (mkUsage 10 5 15);
     modelMessageStopEvent toolUse].
Proof.
  destruct (tool_call_blocks_in_order stringify random36
              (client (Streaming [callChunk [counter; counter] false;
                                  doneChunk (Some 10) (Some 5)] Exhausted))
              config [hello] None) as [_ Hblocks].
  etransitivity;
    [exact (Hblocks [] (callChunk [counter; counter] false)
                    [doneChunk (Some 10) (Some 5)] Exhausted [counter; counter]
                    eq_refl eq_refl)|].
  reflexivity.
Defined.

(** C3 as stated fails. A [params] bag with a [stream] key decides the
    [stream] field of the request. *)
Lemma stream_flag_overridden :
  _formatRequest stringify (withParams {[ "stream" := VBool false ]}) [hello] None
    !! "stream" = Some (VBool false)
  /\ _formatRequest stringify (withParams {[ "stream" := VBool false ]}) [hello] None
       !! "stream" <> Some (VBool true).
Proof. split; [reflexivity|]. vm_compute. discriminate. Qed.

Lemma params_merged_last_witness :
  _formatRequest stringify (withParams {[ "model" := VString "mistral" ]}) [hello] None
    !! "model" = Some (VString "mistral")
  /\ _formatRequest stringify (withParams {[ "model" := VString "mistral" ]}) [hello] None
       !! "keep_alive" = Some VUndefined
  /\ _formatRequest stringify (withParams {[ "model" := VString "mistral" ]}) [hello] None
       !! "stream" = Some (VBool true).
Proof.
  destruct (params_merged_last stringify
              (withParams {[ "model" := VString "mistral" ]}) [hello] None)
    as (Hbag & Hmapped & Hstream).
  split; [apply Hbag; reflexivity|].
  split; [rewrite Hmapped; reflexivity|].
  apply Hstream; reflexivity.
Defined.

(** C4 as stated fails. The gate is the prompt count alone: a done chunk
    with a prompt count and no completion count yields a metadata event,
    with 0 output tokens, and a done chunk with a completion count and no
    prompt count yields none. *)
Lemma usage_gated_by_prompt_count_only :
  events (run (Streaming [doneChunk (Some 10) None] Exhausted))
  = [modelMessageStartEvent "assistant";
     modelMetadataEvent (mkUsage 10 0 10);
     modelMessageStopEvent endTurn]
  /\ events (run (Streaming [doneChunk None (Some 5)] Exhausted))
     = [modelMessageStartEvent "assistant"; modelMessageStopEvent endTurn].
Proof. split; reflexivity. Qed.

Lemma usage_from_terminal_chunk_witness :
  exists body reason,
    events (run (Streaming [callChunk [counter] false; doneChunk (Some 10) (Some 5)]
                           Exhausted))
    = body ++ [modelMetadataEvent (mkUsage 10 5 15); modelMessageStopEvent reason]
    /\ occurrences isMetadata body = 0%nat.
Proof.
  destruct (usage_from_terminal_chunk stringify random36
              (client (Streaming [callChunk [counter] false;
                                  doneChunk (Some 10) (Some 5)] Exhausted))
              config [hello] None
              [callChunk [counter] false] (doneChunk (Some 10) (Some 5)) Exhausted
              eq_refl eq_refl eq_refl)
    as (body & reason & total & Hevents & Hquiet & Htotal).
  assert (Hsum : total = 15).
  { apply Htotal; unfold exactInteger; simpl; lia. }
  exists body, reason. split; [|exact Hquiet].
  rewrite <- Hsum. exact Hevents.
Defined.

(** C5 as stated fails. A done chunk that itself carries the only tool call
    of the stream ends the run with stop reason [toolUse], though no chunk
    before it carries a descriptor. *)
Lemma stop_reason_counts_done_chunk :
  done (callChunk [counter] true) = true
  /\ existsb hasDescriptor ([] : list (ChatResponse Z)) = false
  /\ last (events (run (Streaming ([] ++ [callChunk [counter] true]) Exhausted)))
     = Some (modelMessageStopEvent toolUse).
Proof. repeat split. Qed.

Lemma stop_reason_reflects_tool_calls_witness :
  (exists body,
     events (run (Streaming [callChunk [counter] false; doneChunk None None] Exhausted))
     = body ++ [modelMessageStopEvent toolUse])
  /\ (exists body,
        events (run (Streaming [textChunk "Hi"; doneChunk None None] Exhausted))
        = body ++ [modelMessageStopEvent endTurn]).
Proof.
  split.
  - exact (stop_reason_reflects_tool_calls stringify random36
             (client (Streaming [callChunk [counter] false; doneChunk None None]
                                Exhausted))
             config [hello] None
             [callChunk [counter] false] (doneChunk None None) Exhausted
             eq_refl eq_refl).
  - exact (stop_reason_reflects_tool_calls stringify random36
             (client (Streaming [textChunk "Hi"; doneChunk None None] Exhausted))
             config [hello] None
             [textChunk "Hi"] (doneChunk None None) Exhausted
             eq_refl eq_refl).
Defined.

(** C6 as stated fails. When [params] has a [messages] key, the request
    carries the bag's messages and none of the messages of the tool-result
    block. *)
Lemma tool_results_replaced_by_params :
  _formatRequest stringify (withParams {[ "messages" := VArray [] ]})
                 [mkMessage "user" [ToolResultBlock "call_1" "success" toolResults]]
                 None !! "messages" = Some (VArray [])
  /\ length toolResults = 3%nat.
Proof. split; reflexivity. Qed.

Lemma tool_result_flattened_witness :
  _formatRequest stringify config
                 [mkMessage "user" [ToolResultBlock "call_1" "success" toolResults]]
                 None !! "messages"
  = Some (VArray
      [VObject (literal [("role", VString "tool"); ("content", VString "3")]);
       VObject (literal [("role", VString "tool"); ("content", VString "true")]);
       VObject (literal [("role", VString "tool"); ("content", VString "done")])]).
Proof.
  destruct (tool_result_flattened stringify config [] [] "user" [] []
              "call_1" "success" toolResults None) as (_ & _ & Hrequest).
  exact (Hrequest eq_refl).
Defined.

(** C7 as stated fails. An empty prompt string is carried by the options
    and adds no system message; and a [messages] key in [params] replaces
    the formatted messages, system message included. *)
Lemma system_message_not_always_first :
  formatMessages stringify [hello] (Some (promptOptions (PromptString "")))
  = [VObject (literal [("role", VString "user"); ("content", VString "hello")])]
  /\ _formatRequest stringify (withParams {[ "messages" := VArray [] ]}) [hello]
                    (Some (promptOptions (PromptString "Be brief.")))
       !! "messages" = Some (VArray []).
Proof. split; reflexivity. Qed.

Lemma system_prompt_first_witness :
  formatMessages stringify [hello]
    (Some (promptOptions
             (PromptBlocks [TextBlock "You are "; CachePointBlock; TextBlock "helpful."])))
  = [VObject (literal [("role", VString "system");
                       ("content", VString "You are helpful.")]);
     VObject (literal [("role", VString "user"); ("content", VString "hello")])]
  /\ _formatRequest stringify config [hello]
                    (Some (promptOptions (PromptString "Be brief.")))
       !! "messages"
     = Some (VArray
         [VObject (literal [("role", VString "system");
                            ("content", VString "Be brief.")]);
          VObject (literal [("role", VString "user"); ("content", VString "hello")])]).
Proof.
  split.
  - exact (proj1 (system_prompt_first stringify config [hello]
                    (promptOptions
                       (PromptBlocks [TextBlock "You are "; CachePointBlock;
                                      TextBlock "helpful."]))
                    _ eq_refl eq_refl)).
  - exact (proj2 (system_prompt_first stringify config [hello]
                    (promptOptions (PromptString "Be brief."))
                    _ eq_refl eq_refl) eq_refl).
Defined.

Lemma transport_error_logged_and_rethrown_witness :
  (events (run (Streaming [textChunk "Hi"] (Broken "boom")))
   = [modelMessageStartEvent "assistant";
      modelContentBlockDeltaEvent (textDelta "Hi")]
   /\ errorLog (run (Streaming [textChunk "Hi"] (Broken "boom")))
      = [("Ollama Stream Error:", "boom")]
   /\ completion (run (Streaming [textChunk "Hi"] (Broken "boom"))) = Threw "boom")
  /\ (events (run (Rejected "refused")) = [modelMessageStartEvent "assistant"]
      /\ errorLog (run (Rejected "refused")) = [("Ollama Stream Error:", "refused")]
      /\ completion (run (Rejected "refused")) = Threw "refused").
Proof.
  split.
  - destruct (proj2 (transport_error_logged_and_rethrown stringify random36
                       (client (Streaming [textChunk "Hi"] (Broken "boom")))
                       config [hello] None "boom")
                    [textChunk "Hi"] eq_refl)
      as (Hevents & _ & _ & Hlog & Hthrown).
    split; [|split]; [etransitivity; [exact Hevents|reflexivity]
                     |exact Hlog|exact Hthrown].
  - exact (proj1 (transport_error_logged_and_rethrown stringify random36
                    (client (Rejected "refused")) config [hello] None "refused")
                 eq_refl).
Defined.

Lemma formatting_deterministic_witness :
  _formatRequest stringify config
    [mkMessage "assistant" [ToolUseBlock "letter_counter" "call_4fzyo82" VNull]] None
  = _formatRequest stringify config
      [mkMessage "assistant" [ToolUseBlock "letter_counter" "call_k1x9q0c" VNull]] None.
Proof.
  exact (proj1 (formatting_deterministic (Error := string) stringify random36 random36
                  (client (Streaming [] Exhausted)) (client (Streaming [] Exhausted))
                  config
                  [mkMessage "assistant"
                     [ToolUseBlock "letter_counter" "call_4fzyo82" VNull]]
                  [mkMessage "assistant"
                     [ToolUseBlock "letter_counter" "call_k1x9q0c" VNull]]
                  None eq_refl)).
Defined.

Lemma falsy_prompt_ignored_witness :
  formatMessages stringify [hello] (Some (promptOptions (PromptString "")))
  = formatMessages stringify [hello] None
  /\ _formatRequest stringify config [hello] (Some (promptOptions (PromptString "")))
     = _formatRequest stringify config [hello] (Some (mkStreamOptions None None)).
Proof.
  destruct (falsy_prompt_ignored stringify config [hello]
              (promptOptions (PromptString "")) eq_refl) as (_ & Hnone & Hrequest).
  split; [exact Hnone|exact Hrequest].
Defined.

End Samples.

(** * Further properties of the formatter *)

Section FormatterMore.

Context {number : Type}.
Variable JSON_stringify : Value number -> string.

Implicit Types (acc : list (Value number)) (role : string).
Implicit Types (blocks : list (ContentBlock number)).
Implicit Types (messages : list (Message number)).
Implicit Types (opts : option (StreamOptions number)).
Implicit Types (config : OllamaModelConfig number).

(** *** How many messages, and where *)

Lemma formatBlock_length role (b : ContentBlock number) :
  length (formatBlock JSON_stringify [] role b) = blockMessages b.
Proof.
  destruct b as [text|fmt [bytes|url]|name id input|id status results|];
    simpl; try done.
  rewrite forResults_spec. simpl. apply length_map.
Qed.

Lemma forBlocks_length role blocks :
  length (forBlocks JSON_stringify [] role blocks) =
  sum_list (map blockMessages blocks).
Proof.
  induction blocks as [|b bs IH]; [done|]. simpl.
  rewrite forBlocks_extends, length_app, formatBlock_length, IH. done.
Qed.

Lemma forMessages_length messages :
  length (forMessages JSON_stringify [] messages) = conversationMessages messages.
Proof.
  unfold conversationMessages.
  induction messages as [|m ms IH]; [done|]. simpl.
  by rewrite forMessages_extends, length_app, forBlocks_length, IH.
Qed.

(** X1. The formatted list has one message for a truthy system prompt and,
    for each block of the conversation, one message for a text, inline-image
    or tool-use block, one per item for a tool-result block, and none for
    any other block. *)
Theorem formatted_message_count messages opts :
  length (formatMessages JSON_stringify messages opts) =
  (if truthyPrompt (promptOf opts) then 1 else 0) + conversationMessages messages.
Proof.
  unfold formatMessages. rewrite forMessages_extends, length_app, forMessages_length.
  f_equal. destruct (promptOf opts) as [prompt|]; [|done].
  by destruct (truthyPrompt (Some prompt)).
Qed.

(** X2. Formatting follows the concatenation of conversations: the messages
    of [messages ++ messages'] are those of [messages], system message
    included, followed by those of [messages'] formatted on their own
    without options. *)
Theorem formatting_distributes messages messages' opts :
  formatMessages JSON_stringify (messages ++ messages') opts =
  formatMessages JSON_stringify messages opts
  ++ formatMessages JSON_stringify messages' None.
Proof.
  unfold formatMessages. simpl promptOf. cbv iota.
  by rewrite forMessages_app, forMessages_extends.
Qed.

(** X4. Blocks that the formatter does not convert (images that are not
    inline bytes, blocks of other kinds, tool results without items) leave
    no trace: removing them from the conversation gives the same messages. *)
Theorem skipped_blocks_leave_no_trace messages opts :
  formatMessages JSON_stringify (map withoutSkipped messages) opts =
  formatMessages JSON_stringify messages opts.
Proof.
  unfold formatMessages.
  set (acc := match promptOf opts with Some _ => _ | None => _ end).
  clearbody acc. revert acc.
  induction messages as [|m ms IH]; intros acc; [done|].
  simpl. rewrite IH. f_equal.
  generalize (msg_role m) as role. intros role. clear IH.
  revert acc. induction (msg_content m) as [|b bs IHb]; intros acc; [done|].
  simpl. destruct (Nat.eqb_spec (blockMessages b) 0) as [Hzero|Hpos]; simpl.
  - rewrite IHb. f_equal.
    destruct b as [text|fmt [bytes|url]|name id input|id status results|];
      try discriminate; try done.
    by destruct results.
  - by rewrite IHb.
Qed.

(** *** The shape of the messages *)

Lemma wireMessage_weaken (roles roles' : list string) (v : Value number) :
  roles ⊆ roles' -> wireMessage roles v -> wireMessage roles' v.
Proof.
  intros Hsub (role & key & payload & -> & Hkey & Hrole).
  exists role, key, payload. split; [done|]. split; [done|]. by apply Hsub.
Qed.

Local Ltac shaped := split; [reflexivity|split; set_solver].

Lemma formatBlock_shaped role (b : ContentBlock number) :
  Forall (wireMessage ["tool"; role]) (formatBlock JSON_stringify [] role b).
Proof.
  destruct b as [text|fmt [bytes|url]|name id input|id status results|]; simpl;
    try apply Forall_nil_2.
  - apply Forall_singleton. eexists role, "content", _. shaped.
  - apply Forall_singleton. eexists role, "images", _. shaped.
  - apply Forall_singleton. eexists role, "tool_calls", _. shaped.
  - rewrite forResults_spec. simpl. apply Forall_fmap, Forall_true.
    intros item. eexists "tool", "content", _. shaped.
Qed.

Lemma forBlocks_shaped role blocks :
  Forall (wireMessage ["tool"; role]) (forBlocks JSON_stringify [] role blocks).
Proof.
  induction blocks as [|b bs IH]; [by apply Forall_nil_2|]. simpl.
  rewrite forBlocks_extends. apply Forall_app. split; [apply formatBlock_shaped|done].
Qed.

Lemma forMessages_shaped messages :
  Forall (wireMessage ("tool" :: map msg_role messages))
         (forMessages JSON_stringify [] messages).
Proof.
  induction messages as [|m ms IH]; [by apply Forall_nil_2|]. simpl.
  rewrite forMessages_extends. apply Forall_app. split.
  - eapply Forall_impl; [apply forBlocks_shaped|].
    intros v. apply wireMessage_weaken.
    intros r. rewrite !elem_of_cons, ?elem_of_nil. tauto.
  - eapply Forall_impl; [exact IH|].
    intros v. apply wireMessage_weaken.
    intros r. rewrite !elem_of_cons, ?elem_of_nil. tauto.
Qed.

(** X3. Every formatted message is an object with exactly two keys: [role]
    and one of [content], [images] and [tool_calls]. Its role is [system],
    [tool] or the role of a message of the conversation. *)
Theorem formatted_messages_shaped messages opts :
  Forall (wireMessage ("system" :: "tool" :: map msg_role messages))
         (formatMessages JSON_stringify messages opts).
Proof.
  unfold formatMessages. rewrite forMessages_extends. apply Forall_app. split.
  - destruct (promptOf opts) as [prompt|]; [|by apply Forall_nil_2].
    destruct (truthyPrompt (Some prompt)); [|by apply Forall_nil_2].
    apply Forall_singleton. eexists "system", "content", _. shaped.
  - eapply Forall_impl; [apply forMessages_shaped|].
    intros v. apply wireMessage_weaken.
    intros r. rewrite !elem_of_cons, ?elem_of_nil. tauto.
Qed.

End FormatterMore.

(** * Further properties of the request and of the configuration *)

Section RequestMore.

Context {number : Type}.
Variable JSON_stringify : Value number -> string.

Implicit Types (messages : list (Message number)).
Implicit Types (opts : option (StreamOptions number)).
Implicit Types (config : OllamaModelConfig number).
Implicit Types (this : OllamaModel number) (modelConfig : PartialConfig number).

(** X5. In the [options] object of the request the config's [options] bag
    wins over the mapped sampling parameters: a key of the bag has the bag's
    value, and the four mapped keys are present even when the bag and the
    configuration say nothing about them. The object reaches the request
    unless [params] has an [options] key. *)
Theorem options_bag_over_sampling config messages opts :
  let bag := orEmpty (options config) in
  let sampling := samplingOptions config in
  (forall key value, bag !! key = Some value -> sampling !! key = Some value)
  /\ (forall key, bag !! key = None ->
        sampling !! key =
        literal [("temperature", optional VNumber (temperature config));
                 ("num_predict", optional VNumber (maxTokens config));
                 ("top_p", optional VNumber (topP config));
                 ("stop", optional (fun l => VArray (map VString l))
                                   (stopSequences config))] !! key)
  /\ dom sampling
     = (dom bag ∪ list_to_set ["temperature"; "num_predict"; "top_p"; "stop"]
        : gset string)
  /\ (orEmpty (params config) !! "options" = None ->
      _formatRequest JSON_stringify config messages opts !! "options"
      = Some (VObject sampling)).
Proof.
  intros bag sampling. subst sampling. unfold samplingOptions. fold bag.
  split; [|split; [|split]].
  - intros key value Hbag. by apply lookup_union_Some_l.
  - intros key Hfree. by apply lookup_union_r.
  - rewrite dom_union_L. unfold literal. by rewrite dom_list_to_map_L.
  - intros Hfree. unfold _formatRequest. by rewrite lookup_union_r.
Qed.

(** X6. The keys of a request are the six mapped keys together with the
    keys of [params]; the mapped keys are present even when their value is
    [undefined]. *)
Theorem request_keys config messages opts :
  dom (_formatRequest JSON_stringify config messages opts)
  = (dom (orEmpty (params config))
     ∪ list_to_set ["model"; "messages"; "stream"; "options"; "keep_alive"; "tools"]
     : gset string).
Proof.
  unfold _formatRequest, mappedFields, literal.
  by rewrite dom_union_L, dom_list_to_map_L.
Qed.

(** *** [updateConfig] *)

Lemma spread_spread {A} (base : A) (first second : option A) :
  spread (spread base first) second = spread base (spreadPartial first second).
Proof. by destruct second. Qed.

(** X7. Updates compose: updating with [first] and then with [second] is
    updating once with [{ ...first, ...second }], the later value winning
    at each key; and an update that names no key changes nothing. *)
Theorem updateConfig_composes this (first second : PartialConfig number) :
  updateConfig (updateConfig this first) second
  = updateConfig this (overlay first second)
  /\ getConfig (updateConfig this
        (mkPartial None None None None None None None None None))
     = getConfig this.
Proof.
  split.
  - unfold updateConfig, overlay. simpl. by rewrite !spread_spread.
  - by destruct this as [[]].
Qed.

(** X8. After [updateConfig({ modelId })] the requests name the new model,
    unless [params] overrides [model]; every other key of the request and
    the host of the client are as before. *)
Theorem updateConfig_modelId_retargets this (model : string) messages opts :
  let before := getConfig this in
  let after :=
    getConfig (updateConfig this
      (mkPartial (Some model) None None None None None None None None)) in
  (orEmpty (params before) !! "model" = None ->
   _formatRequest JSON_stringify after messages opts !! "model"
   = Some (VString model))
  /\ (forall key, key <> "model" ->
        _formatRequest JSON_stringify after messages opts !! key
        = _formatRequest JSON_stringify before messages opts !! key)
  /\ host after = host before.
Proof.
  destruct this as [config]. simpl. split; [|split; [|done]].
  - intros Hfree. unfold _formatRequest. simpl. by rewrite lookup_union_r.
  - intros key Hkey. unfold _formatRequest, mappedFields, literal. simpl.
    rewrite !lookup_union. f_equal.
    by rewrite !(lookup_insert_ne _ "model").
Qed.

(** X9. [updateConfig] replaces a bag as a whole, it does not merge into
    it. After an update with a new [options] bag, and when [params] has no
    [options] key, the [options] field of the request is an object in which
    a key other than the four mapped ones has the new bag's value or is
    absent; after an update with a new [params] bag, a key of the request
    other than the six mapped ones has the new bag's value or is absent,
    whatever the old bag held. *)
Theorem updateConfig_replaces_bags
        this (bag : gmap string (Value number)) messages opts (key : string) :
  let newOptions :=
    getConfig (updateConfig this
      (mkPartial None None None None None None None (Some (Some bag)) None)) in
  let newParams :=
    getConfig (updateConfig this
      (mkPartial None None None None None None None None (Some (Some bag)))) in
  (orEmpty (params (getConfig this)) !! "options" = None ->
   key ∉ ["temperature"; "num_predict"; "top_p"; "stop"] ->
   exists fields,
     _formatRequest JSON_stringify newOptions messages opts !! "options"
     = Some (VObject fields)
     /\ fields !! key = bag !! key)
  /\ (key ∉ ["model"; "messages"; "stream"; "options"; "keep_alive"; "tools"] ->
      _formatRequest JSON_stringify newParams messages opts !! key = bag !! key).
Proof.
  destruct this as [config]. simpl. split.
  - intros Hfree Hkey. rewrite !not_elem_of_cons in Hkey.
    destruct Hkey as (? & ? & ? & ? & _).
    eexists. split.
    + unfold _formatRequest. simpl. rewrite lookup_union_r by exact Hfree.
      reflexivity.
    + unfold samplingOptions, literal. simpl.
      rewrite lookup_union, !lookup_insert_ne, lookup_empty by congruence.
      by destruct (bag !! key).
  - intros Hkey. rewrite !not_elem_of_cons in Hkey.
    destruct Hkey as (? & ? & ? & ? & ? & ? & _).
    unfold _formatRequest, mappedFields, literal. simpl.
    rewrite lookup_union, !lookup_insert_ne, lookup_empty by congruence.
    by destruct (bag !! key).
Qed.

End RequestMore.

(** * Further properties of the stream translation *)

Section TranslatorMore.

Context {number Error : Type}.
Variable JSON_stringify : Value number -> string.
Variable Math_random_base36 : nat -> string.

Implicit Types (st : LoopState) (chunk : ChatResponse number).
Implicit Types (chunks : list (ChatResponse number)).
Implicit Types (calls : list (ToolCall number)).
Implicit Types (evs : list ModelStreamEvent).

Local Abbreviation loopBody' := (loopBody JSON_stringify Math_random_base36).
Local Abbreviation forAwait' := (forAwait JSON_stringify Math_random_base36).
Local Abbreviation stream' := (stream JSON_stringify (Error := Error) Math_random_base36).
Local Abbreviation request' := (_formatRequest JSON_stringify).
Local Abbreviation translated' := (translated JSON_stringify Math_random_base36).
Local Abbreviation newToolUseId' := (newToolUseId Math_random_base36).
Local Abbreviation blockOf k tc :=
  [modelContentBlockStartEvent (newToolUseId' k) (fn_name tc);
   modelContentBlockDeltaEvent
     (toolUseInputDelta (JSON_stringify (fn_arguments tc)));
   modelContentBlockStopEvent].

(** *** The events of one chunk *)

Lemma textEvents_content chunk :
  textEvents chunk =
  if String.eqb (chunkContent chunk) "" then []
  else [modelContentBlockDeltaEvent (textDelta (chunkContent chunk))].
Proof.
  unfold textEvents, chunkContent.
  destruct (message chunk) as [m|]; [|done]. by destruct (content m).
Qed.

Lemma descriptorCount_one chunk :
  descriptorCount [chunk] =
  match toolCallsOf chunk with Some calls => length calls | None => 0 end.
Proof. simpl. apply Nat.add_0_r. Qed.

Lemma occurrences_blocks p n k calls :
  (forall j tc, occurrences p (blockOf j tc) = n) ->
  occurrences p (concat (imap (fun i tc => blockOf (k + i) tc) calls))
  = n * length calls.
Proof.
  intros Hblock. revert k; induction calls as [|tc rest IH]; intros k.
  - unfold occurrences. simpl. lia.
  - rewrite imap_cons, concat_cons, occurrences_app, Hblock.
    erewrite imap_ext; [rewrite (IH (S k))|]; cycle 1.
    { intros i x _. simpl. by rewrite Nat.add_succ_r. }
    simpl. lia.
Qed.

Lemma occurrences_forAwait p (perChunk : ChatResponse number -> nat) :
  (forall st chunk, occurrences p (fst (loopBody' st chunk)) = perChunk chunk) ->
  forall st chunks,
    occurrences p (fst (forAwait' st chunks)) = sum_list (map perChunk chunks).
Proof.
  intros Hchunk st chunks. revert st.
  induction chunks as [|c cs IH]; intros st; [done|].
  rewrite forAwait_cons. cbn [fst]. by rewrite occurrences_app, Hchunk, IH.
Qed.

Lemma sum_indicator {A} (f : A -> bool) (l : list A) :
  sum_list (map (fun x => if f x then 1 else 0) l) = length (List.filter f l).
Proof.
  induction l as [|x l IH]; [done|]. simpl. rewrite IH. by destruct (f x).
Qed.

Lemma occurrences_loopBody p st chunk :
  occurrences p (fst (loopBody' st chunk)) =
  occurrences p (textEvents chunk)
  + occurrences p
      match toolCallsOf chunk with
      | Some calls =>
          concat (imap (fun i tc => blockOf (randomDraws st + i) tc) calls)
      | None => []
      end
  + occurrences p (doneEvents (toolRequested st || hasDescriptor chunk) chunk).
Proof. rewrite loopBody_events, !occurrences_app. lia. Qed.

Lemma occurrences_after_start p Ollama config messages opts chunks ending :
  p (modelMessageStartEvent "assistant") = false ->
  Ollama (host config) (request' config messages opts) = Streaming chunks ending ->
  occurrences p (events (stream' Ollama config messages opts))
  = occurrences p (translated' chunks).
Proof.
  intros Hp Hchat. rewrite (stream_events _ _ _ _ _ _ _ _ Hchat).
  unfold occurrences. simpl. by rewrite Hp.
Qed.

(** *** Counting the events of a run *)

(** X10. A run yields one message-stop for each chunk marked done, wherever
    the chunk stands in the stream: none when no chunk is done, several when
    several are. *)
Theorem one_stop_per_done_chunk Ollama config messages opts chunks ending :
  Ollama (host config) (request' config messages opts) = Streaming chunks ending ->
  occurrences isMessageStop (events (stream' Ollama config messages opts))
  = length (List.filter done chunks).
Proof.
  intros Hchat. rewrite (occurrences_after_start _ _ _ _ _ _ _ eq_refl Hchat).
  unfold translated. rewrite <- sum_indicator. apply occurrences_forAwait.
  intros st chunk. rewrite occurrences_loopBody, textEvents_content.
  assert (Hblocks : forall k calls,
             occurrences isMessageStop
               (concat (imap (fun i tc => blockOf (k + i) tc) calls)) = 0).
  { intros k calls. by rewrite (occurrences_blocks _ 0). }
  unfold doneEvents.
  destruct (String.eqb _ ""), (toolCallsOf chunk), (done chunk),
    (prompt_eval_count chunk); rewrite ?Hblocks; reflexivity.
Qed.

(** X11. A run yields one metadata event for each chunk that is marked done
    and carries a prompt token count, and no other. *)
Theorem one_metadata_per_metered_chunk Ollama config messages opts chunks ending :
  Ollama (host config) (request' config messages opts) = Streaming chunks ending ->
  occurrences isMetadata (events (stream' Ollama config messages opts))
  = length (List.filter metered chunks).
Proof.
  intros Hchat. rewrite (occurrences_after_start _ _ _ _ _ _ _ eq_refl Hchat).
  unfold translated. rewrite <- sum_indicator. apply occurrences_forAwait.
  intros st chunk. rewrite occurrences_loopBody, textEvents_content.
  assert (Hblocks : forall k calls,
             occurrences isMetadata
               (concat (imap (fun i tc => blockOf (k + i) tc) calls)) = 0).
  { intros k calls. by rewrite (occurrences_blocks _ 0). }
  unfold doneEvents, metered.
  destruct (String.eqb _ ""), (toolCallsOf chunk), (done chunk),
    (prompt_eval_count chunk); rewrite ?Hblocks; reflexivity.
Qed.

Lemma block_events_count p chunks :
  p (modelMessageStartEvent "assistant") = false ->
  (forall d, p (modelContentBlockDeltaEvent (textDelta d)) = false) ->
  (forall u, p (modelMetadataEvent u) = false) ->
  (forall r, p (modelMessageStopEvent r) = false) ->
  (forall j (tc : ToolCall number), occurrences p (blockOf j tc) = 1) ->
  forall st, occurrences p (fst (forAwait' st chunks)) = descriptorCount chunks.
Proof.
  intros _ Htext Hmeta Hstop Hblock st.
  rewrite (occurrences_forAwait p (fun c => descriptorCount [c])).
  - clear st. induction chunks as [|c cs IH]; [done|].
    simpl in *. rewrite IH. lia.
  - clear st. intros st chunk.
    rewrite occurrences_loopBody, textEvents_content, descriptorCount_one.
    assert (occurrences p (doneEvents (toolRequested st || hasDescriptor chunk) chunk)
            = 0) as ->.
    { unfold doneEvents, occurrences.
      destruct (done chunk); [|done].
      destruct (prompt_eval_count chunk); simpl; by rewrite ?Hmeta, ?Hstop. }
    assert (occurrences p
              (if String.eqb (chunkContent chunk) "" then []
               else [modelContentBlockDeltaEvent (textDelta (chunkContent chunk))])
            = 0) as ->.
    { destruct (String.eqb _ ""); [done|]. unfold occurrences. simpl.
      by rewrite Htext. }
    destruct (toolCallsOf chunk) as [calls|]; [|done].
    rewrite (occurrences_blocks _ 1) by done. lia.
Qed.

(** X12. A run yields as many content-block-starts as the chunks carry
    tool-call descriptors, as many tool-input deltas, and as many
    content-block-stops; in particular a chunk whose list of tool calls is
    empty yields none. *)
Theorem one_block_per_descriptor Ollama config messages opts chunks ending :
  Ollama (host config) (request' config messages opts) = Streaming chunks ending ->
  let evs := events (stream' Ollama config messages opts) in
  occurrences isBlockStart evs = descriptorCount chunks
  /\ occurrences isToolInput evs = descriptorCount chunks
  /\ occurrences isBlockStop evs = descriptorCount chunks.
Proof.
  intros Hchat evs. subst evs.
  rewrite !(occurrences_after_start _ _ _ _ _ _ _ eq_refl Hchat).
  unfold translated. by rewrite !block_events_count.
Qed.

(** *** Text *)

Lemma omap_blocks {B} (f : ModelStreamEvent -> option B) k calls :
  (forall id name, f (modelContentBlockStartEvent id name) = None) ->
  (forall input, f (modelContentBlockDeltaEvent (toolUseInputDelta input)) = None) ->
  f modelContentBlockStopEvent = None ->
  omap f (concat (imap (fun i tc => blockOf (k + i) tc) calls)) = [].
Proof.
  intros Hstart Hdelta Hstop. revert k.
  induction calls as [|tc rest IH]; intros k; [done|].
  rewrite imap_cons, concat_cons, omap_app.
  erewrite imap_ext; [rewrite (IH (S k))|]; cycle 1.
  { intros i x _. simpl. by rewrite Nat.add_succ_r. }
  simpl. by rewrite Hstart, Hdelta, Hstop.
Qed.

Lemma texts_forAwait st chunks :
  omap textOfEvent (fst (forAwait' st chunks)) =
  List.filter (fun text => negb (String.eqb text "")) (map chunkContent chunks).
Proof.
  revert st; induction chunks as [|c cs IH]; intros st; [done|].
  rewrite forAwait_cons. cbn [fst]. rewrite omap_app, IH, loopBody_events.
  rewrite !omap_app, textEvents_content.
  assert (omap textOfEvent
            (doneEvents (toolRequested st || hasDescriptor c) c) = []) as ->.
  { unfold doneEvents. destruct (done c); [|done].
    by destruct (prompt_eval_count c). }
  assert (omap textOfEvent
            match toolCallsOf c with
            | Some calls =>
                concat (imap (fun i tc => blockOf (randomDraws st + i) tc) calls)
            | None => []
            end = []) as ->.
  { destruct (toolCallsOf c); [by apply omap_blocks|done]. }
  simpl. by destruct (String.eqb (chunkContent c) "").
Qed.

Lemma append_skips_empty (texts : list string) :
  fold_right String.append ""
    (List.filter (fun text => negb (String.eqb text "")) texts)
  = fold_right String.append "" texts.
Proof.
  induction texts as [|t ts IH]; [done|]. simpl.
  destruct (String.eqb_spec t "") as [->|_]; simpl; by rewrite IH.
Qed.

(** X13. The text deltas of a run are, in order, the non-empty texts of the
    chunks: no text is lost, repeated or reordered, no delta is empty, and
    the deltas appended together give the texts of the chunks appended
    together. *)
Theorem text_deltas_carry_the_text Ollama config messages opts chunks ending :
  Ollama (host config) (request' config messages opts) = Streaming chunks ending ->
  let texts := omap textOfEvent (events (stream' Ollama config messages opts)) in
  texts = List.filter (fun text => negb (String.eqb text ""))
                      (map chunkContent chunks)
  /\ fold_right String.append "" texts
     = fold_right String.append "" (map chunkContent chunks).
Proof.
  intros Hchat texts. subst texts.
  rewrite (stream_events _ _ _ _ _ _ _ _ Hchat). simpl omap.
  unfold translated. rewrite texts_forAwait. split; [done|].
  apply append_skips_empty.
Qed.

(** *** Streams that extend one another *)

(** X14. What a run has yielded when the transport breaks is a prefix of
    what any run yields whose stream begins with the same chunks: later
    chunks, and the way the stream ends, never change the events of earlier
    chunks. *)
Theorem events_only_grow
        Ollama Ollama' config messages opts chunks more ending ending' :
  Ollama (host config) (request' config messages opts) = Streaming chunks ending ->
  Ollama' (host config) (request' config messages opts)
  = Streaming (chunks ++ more) ending' ->
  events (stream' Ollama config messages opts)
  `prefix_of` events (stream' Ollama' config messages opts).
Proof.
  intros Hchat Hchat'.
  rewrite (stream_events _ _ _ _ _ _ _ _ Hchat),
          (stream_events _ _ _ _ _ _ _ _ Hchat').
  unfold translated. rewrite forAwait_app. cbn [fst].
  eexists. by rewrite app_comm_cons.
Qed.

(** *** Tool-use identifiers *)

Lemma ids_blocks k calls :
  omap idOfEvent (concat (imap (fun i tc => blockOf (k + i) tc) calls))
  = map newToolUseId' (seq k (length calls)).
Proof.
  revert k; induction calls as [|tc rest IH]; intros k; [done|].
  rewrite imap_cons, concat_cons, omap_app.
  erewrite imap_ext; [rewrite (IH (S k))|]; cycle 1.
  { intros i x _. simpl. by rewrite Nat.add_succ_r. }
  simpl. by rewrite Nat.add_0_r.
Qed.

Lemma ids_forAwait st chunks :
  omap idOfEvent (fst (forAwait' st chunks)) =
  map newToolUseId' (seq (randomDraws st) (descriptorCount chunks)).
Proof.
  revert st; induction chunks as [|c cs IH]; intros st; [done|].
  rewrite forAwait_cons. cbn [fst].
  rewrite omap_app, IH, loopBody_state, loopBody_events, descriptorCount_one.
  cbn [randomDraws]. rewrite !omap_app, textEvents_content.
  assert (omap idOfEvent
            (doneEvents (toolRequested st || hasDescriptor c) c) = []) as ->.
  { unfold doneEvents. destruct (done c); [|done].
    by destruct (prompt_eval_count c). }
  assert (omap idOfEvent
            (if String.eqb (chunkContent c) "" then []
             else [modelContentBlockDeltaEvent (textDelta (chunkContent c))])
          = []) as ->.
  { by destruct (String.eqb _ ""). }
  change (descriptorCount (c :: cs))
    with (match toolCallsOf c with Some calls => length calls | None => 0 end
          + descriptorCount cs).
  rewrite seq_app, map_app, app_nil_r. simpl app. f_equal.
  destruct (toolCallsOf c) as [calls|]; [apply ids_blocks|done].
Qed.

Lemma ids_of_run Ollama config messages opts chunks ending :
  Ollama (host config) (request' config messages opts) = Streaming chunks ending ->
  omap idOfEvent (events (stream' Ollama config messages opts))
  = map newToolUseId' (seq 0 (descriptorCount chunks)).
Proof.
  intros Hchat. rewrite (stream_events _ _ _ _ _ _ _ _ Hchat). simpl omap.
  apply (ids_forAwait (mkLoopState false 0)).
Qed.

(** X15. The identifiers of the content-block-starts of a run are, in
    order, those made from the first, second, ... draw of the run: each
    descriptor takes exactly one draw, none is skipped and none is used
    twice. *)
Theorem identifiers_follow_the_draws Ollama config messages opts chunks ending :
  Ollama (host config) (request' config messages opts) = Streaming chunks ending ->
  omap idOfEvent (events (stream' Ollama config messages opts))
  = map (fun k => String.append "call_"
                    (String.substring 2 7 (Math_random_base36 k)))
        (seq 0 (descriptorCount chunks)).
Proof. exact (ids_of_run Ollama config messages opts chunks ending). Qed.

Lemma length_append (s t : string) :
  String.length (String.append s t) = String.length s + String.length t.
Proof.
  induction s as [|c s IH]; [done|].
  change (S (String.length (String.append s t))
          = S (String.length s + String.length t)).
  by rewrite IH.
Qed.

Lemma length_substring (n m : nat) (s : string) :
  String.length (String.substring n m s) = Nat.min m (String.length s - n).
Proof.
  revert n m; induction s as [|c s IH]; intros n m.
  - by destruct n, m.
  - destruct n as [|n]; simpl.
    + destruct m as [|m]; [done|]. simpl. rewrite IH.
      rewrite Nat.sub_0_r. done.
    + by rewrite IH.
Qed.

(** X16. A tool-use identifier is [call_] followed by the characters of the
    draw's base-36 rendering from the third to the ninth: it has between 5
    and 12 characters, 12 when the rendering has at least nine characters,
    and it is [call_] alone when the rendering has at most two (the draw 0,
    rendered as one character). *)
Theorem identifier_format (k : nat) :
  String.prefix "call_" (newToolUseId Math_random_base36 k) = true
  /\ String.length (newToolUseId Math_random_base36 k)
     = 5 + Nat.min 7 (String.length (Math_random_base36 k) - 2)
  /\ 5 <= String.length (newToolUseId Math_random_base36 k) <= 12
  /\ (String.length (Math_random_base36 k) <= 2 ->
      newToolUseId Math_random_base36 k = "call_").
Proof.
  unfold newToolUseId.
  assert (Hlen : String.length
            (String.append "call_" (String.substring 2 7 (Math_random_base36 k)))
          = 5 + Nat.min 7 (String.length (Math_random_base36 k) - 2)).
  { by rewrite length_append, length_substring. }
  split; [|split; [exact Hlen|split; [lia|]]].
  - change (String.prefix "" (String.substring 2 7 (Math_random_base36 k)) = true).
    by destruct (String.substring 2 7 (Math_random_base36 k)).
  - intros Hshort.
    assert (Hempty : String.length (String.substring 2 7 (Math_random_base36 k)) = 0).
    { rewrite length_substring. lia. }
    destruct (String.substring 2 7 (Math_random_base36 k)); [done|discriminate].
Qed.

(** X17. The identifiers of a run are pairwise distinct exactly when the
    draws it takes differ in the seven characters kept of their renderings:
    two draws that agree there give the same identifier to two tool calls. *)
Theorem identifiers_distinct_iff Ollama config messages opts chunks ending :
  Ollama (host config) (request' config messages opts) = Streaming chunks ending ->
  NoDup (omap idOfEvent (events (stream' Ollama config messages opts)))
  <-> NoDup (map (fun k => String.substring 2 7 (Math_random_base36 k))
                 (seq 0 (descriptorCount chunks))).
Proof.
  intros Hchat. rewrite (ids_of_run _ _ _ _ _ _ Hchat).
  unfold newToolUseId.
  rewrite <- (map_map (fun k => String.substring 2 7 (Math_random_base36 k))
                      (String.append "call_")).
  rewrite !NoDup_ListNoDup. split.
  - apply NoDup_map_inv.
  - apply NoDup_map_NoDup_ForallPairs. intros s t _ _ Heq.
    cbv beta iota delta [String.append] in Heq. by injection Heq.
Qed.

(** *** Stop reasons *)




(** *** Chunks that carry nothing *)

Lemma loopBody_silent st chunk :
  silent chunk = true -> loopBody' st chunk = ([], st).
Proof.
  unfold silent.
  intros [[Htext Hcalls%negb_true_iff]%andb_prop Hdone%negb_true_iff]%andb_prop.
  apply injective_projections.
  - rewrite loopBody_events, textEvents_content, Htext.
    rewrite doneEvents_not_done by done.
    unfold hasDescriptor in Hcalls. by destruct (toolCallsOf chunk) as [[|]|].
  - rewrite loopBody_state, Hcalls, descriptorCount_one.
    unfold hasDescriptor in Hcalls.
    destruct st as [flag draws]. simpl. rewrite orb_false_r. f_equal.
    destruct (toolCallsOf chunk) as [[|]|]; simpl; try done; lia.
Qed.

Lemma forAwait_without_silent st chunks :
  forAwait' st (List.filter (fun c => negb (silent c)) chunks) = forAwait' st chunks.
Proof.
  revert st; induction chunks as [|c cs IH]; intros st; [done|].
  simpl List.filter. destruct (silent c) eqn:Hsilent; simpl negb; cbv iota.
  - rewrite IH, (forAwait_cons _ _ st c cs), (loopBody_silent _ _ Hsilent).
    simpl. by destruct (forAwait' st cs).
  - by rewrite !forAwait_cons, IH.
Qed.

(** X19. Chunks without text, without tool-call descriptors and not marked
    done (keep-alive chunks, chunks with an empty text or an empty list of
    tool calls) are invisible: a stream and the same stream without them
    give the same events. *)
Theorem silent_chunks_invisible
        Ollama Ollama' config messages opts chunks ending ending' :
  Ollama (host config) (request' config messages opts) = Streaming chunks ending ->
  Ollama' (host config) (request' config messages opts)
  = Streaming (List.filter (fun c => negb (silent c)) chunks) ending' ->
  events (stream' Ollama' config messages opts)
  = events (stream' Ollama config messages opts).
Proof.
  intros Hchat Hchat'.
  rewrite (stream_events _ _ _ _ _ _ _ _ Hchat),
          (stream_events _ _ _ _ _ _ _ _ Hchat').
  unfold translated. by rewrite forAwait_without_silent.
Qed.

(** *** The message-start *)

(** X20. Whatever the transport does, also when it fails to open the stream
    or breaks it, a run yields the message-start first and exactly once, and
    the request it hands to the client is the formatted request. *)
Theorem every_run_starts_once Ollama config messages opts :
  startsOnce (events (stream' Ollama config messages opts))
  /\ sent (stream' Ollama config messages opts) = request' config messages opts.
Proof.
  split; [|apply stream_sent].
  unfold stream.
  assert (Hstreaming : forall chunks,
             startsOnce (modelMessageStartEvent "assistant" :: translated' chunks)).
  { intros chunks. split; [by eexists|].
    change (S (occurrences isMessageStart (translated' chunks)) = 1).
    by rewrite translated_no_start. }
  destruct (Ollama _ _) as [error|chunks [|error]]; simpl;
    [split; [by eexists|done]|apply Hstreaming..].
Qed.

End TranslatorMore.

(** * Properties of the letter counter *)

Section LetterCounterProperties.

Context {item : Type} `{EqDecision item}.
Variable toLowerCase : list item -> list item.

Lemma forChars_count (lowerLetter : list item) (count : nat) (lowerWord : list item) :
  LetterCounter.forChars lowerLetter count lowerWord =
  count + match lowerLetter with
          | [c] => length (filter (fun char => char = c) lowerWord)
          | _ => 0
          end.
Proof.
  revert count; induction lowerWord as [|char rest IH]; intros count.
  - simpl. destruct lowerLetter as [|c [|]]; simpl; lia.
  - simpl. rewrite IH. destruct lowerLetter as [|c [|d more]].
    + rewrite decide_False by done. lia.
    + rewrite filter_cons. destruct (decide (char = c)) as [->|Hne].
      * rewrite decide_True by done. simpl. lia.
      * rewrite decide_False by congruence. lia.
    + rewrite decide_False by done. lia.
Qed.

(** X21. The count the tool reports is the number of items of the
    lower-cased word that equal the lower-cased letter when the latter is a
    single item; it is 0 when the lower-cased letter is empty or has several
    items, whatever the word. *)
Theorem letter_count_meaning (word letter : list item) :
  LetterCounter.counted toLowerCase word letter =
  match toLowerCase letter with
  | [c] => length (filter (fun char => char = c) (toLowerCase word))
  | _ => 0
  end.
Proof. unfold LetterCounter.counted. by rewrite forChars_count. Qed.

(** X22. The count never exceeds the number of items of the lower-cased
    word, and it is 0 for a word whose lower-cased form is empty. *)
Theorem letter_count_bounded (word letter : list item) :
  LetterCounter.counted toLowerCase word letter <= length (toLowerCase word)
  /\ (toLowerCase word = [] -> LetterCounter.counted toLowerCase word letter = 0).
Proof.
  unfold LetterCounter.counted. rewrite forChars_count. split.
  - destruct (toLowerCase letter) as [|c [|]]; simpl; try lia.
    apply length_filter.
  - intros ->. by destruct (toLowerCase letter) as [|c [|]].
Qed.

End LetterCounterProperties.

(** * The further properties at sample inputs *)

Section MoreSamples.

Import Sample.
Local Open Scope Z_scope.

Lemma options_bag_over_sampling_witness :
  samplingOptions (Cases.withOptions (Some 1) {[ "temperature" := VNumber 0 ]})
    !! "temperature" = Some (VNumber 0)
  /\ samplingOptions (Cases.withOptions (Some 1) {[ "seed" := VNumber 42 ]})
       !! "temperature" = Some (VNumber 1)
  /\ samplingOptions (Cases.withOptions (Some 1) {[ "seed" := VNumber 42 ]})
       !! "top_p" = Some VUndefined
  /\ _formatRequest stringify (Cases.withOptions (Some 1) {[ "seed" := VNumber 42 ]})
                    [hello] None !! "options"
     = Some (VObject
               (samplingOptions (Cases.withOptions (Some 1) {[ "seed" := VNumber 42 ]}))).
Proof.
  destruct (options_bag_over_sampling stringify
              (Cases.withOptions (Some 1) {[ "temperature" := VNumber 0 ]})
              [hello] None) as (Hbag & _).
  destruct (options_bag_over_sampling stringify
              (Cases.withOptions (Some 1) {[ "seed" := VNumber 42 ]})
              [hello] None) as (_ & Hmapped & _ & Hrequest).
  split; [apply Hbag; reflexivity|].
  split; [rewrite Hmapped; reflexivity|].
  split; [rewrite Hmapped; reflexivity|].
  apply Hrequest; reflexivity.
Defined.

Lemma updateConfig_modelId_retargets_witness :
  _formatRequest stringify
    (getConfig (updateConfig (newOllamaModel config)
       (mkPartial (Some "mistral") None None None None None None None None)))
    [hello] None !! "model" = Some (VString "mistral")
  /\ _formatRequest stringify
       (getConfig (updateConfig (newOllamaModel config)
          (mkPartial (Some "mistral") None None None None None None None None)))
       [hello] None !! "stream" = Some (VBool true).
Proof.
  destruct (updateConfig_modelId_retargets stringify (newOllamaModel config)
              "mistral" [hello] None) as (Hmodel & Hother & _).
  split; [apply Hmodel; reflexivity|].
  rewrite (Hother "stream") by discriminate. reflexivity.
Defined.

Lemma updateConfig_replaces_bags_witness :
  (exists fields,
     _formatRequest stringify
       (getConfig (updateConfig
          (newOllamaModel (Cases.withOptions None {[ "seed" := VNumber 42 ]}))
          (mkPartial None None None None None None None
                     (Some (Some {[ "mirostat" := VNumber 1 ]})) None)))
       [hello] None !! "options" = Some (VObject fields)
     /\ fields !! "seed" = None)
  /\ _formatRequest stringify
       (getConfig (updateConfig
          (newOllamaModel (withParams {[ "format" := VString "json" ]}))
          (mkPartial None None None None None None None None
                     (Some (Some {[ "think" := VBool true ]})))))
       [hello] None !! "format" = None.
Proof.
  split.
  - destruct (updateConfig_replaces_bags stringify
                (newOllamaModel (Cases.withOptions None {[ "seed" := VNumber 42 ]}))
                {[ "mirostat" := VNumber 1 ]} [hello] None "seed") as [Hoptions _].
    destruct Hoptions as (fields & Hfield & Hseed); [reflexivity| |].
    + rewrite !not_elem_of_cons. repeat split; try discriminate.
      apply not_elem_of_nil.
    + exists fields. split; [exact Hfield|]. rewrite Hseed. reflexivity.
  - destruct (updateConfig_replaces_bags stringify
                (newOllamaModel (withParams {[ "format" := VString "json" ]}))
                {[ "think" := VBool true ]} [hello] None "format") as [_ Hparams].
    rewrite Hparams; [reflexivity|].
    rewrite !not_elem_of_cons. repeat split; try discriminate. apply not_elem_of_nil.
Defined.

Lemma one_stop_per_done_chunk_witness :
  occurrences isMessageStop
    (events (run (Streaming [doneChunk None None; textChunk "late";
                             doneChunk None None] Exhausted))) = 2%nat.
Proof.
  exact (one_stop_per_done_chunk stringify random36
           (client (Streaming [doneChunk None None; textChunk "late";
                               doneChunk None None] Exhausted))
           config [hello] None _ _ eq_refl).
Defined.

Lemma one_metadata_per_metered_chunk_witness :
  occurrences isMetadata
    (events (run (Streaming [doneChunk None (Some 5); doneChunk (Some 10) None]
                            Exhausted))) = 1%nat.
Proof.
  exact (one_metadata_per_metered_chunk stringify random36
           (client (Streaming [doneChunk None (Some 5); doneChunk (Some 10) None]
                              Exhausted))
           config [hello] None _ _ eq_refl).
Defined.

Lemma one_block_per_descriptor_witness :
  occurrences isBlockStart
    (events (run (Streaming [callChunk [counter; counter] false; callChunk [] false;
                             doneChunk None None] Exhausted))) = 2%nat
  /\ occurrences isToolInput
       (events (run (Streaming [callChunk [counter; counter] false; callChunk [] false;
                                doneChunk None None] Exhausted))) = 2%nat
  /\ occurrences isBlockStop
       (events (run (Streaming [callChunk [counter; counter] false; callChunk [] false;
                                doneChunk None None] Exhausted))) = 2%nat.
Proof.
  exact (one_block_per_descriptor stringify random36
           (client (Streaming [callChunk [counter; counter] false; callChunk [] false;
                               doneChunk None None] Exhausted))
           config [hello] None _ _ eq_refl).
Defined.

Lemma text_deltas_carry_the_text_witness :
  omap textOfEvent
    (events (run (Streaming [textChunk "Hel"; callChunk [counter] false;
                             textChunk "lo"; doneChunk None None] Exhausted)))
  = ["Hel"; "lo"]
  /\ fold_right String.append ""
       (omap textOfEvent
          (events (run (Streaming [textChunk "Hel"; callChunk [counter] false;
                                   textChunk "lo"; doneChunk None None] Exhausted))))
     = "Hello".
Proof.
  exact (text_deltas_carry_the_text stringify random36
           (client (Streaming [textChunk "Hel"; callChunk [counter] false;
                               textChunk "lo"; doneChunk None None] Exhausted))
           config [hello] None _ _ eq_refl).
Defined.

Lemma events_only_grow_witness :
  events (run (Streaming [textChunk "Hi"] (Broken "boom")))
  `prefix_of`
  events (run (Streaming [textChunk "Hi"; doneChunk None None] Exhausted)).
Proof.
  exact (events_only_grow stringify random36
           (client (Streaming [textChunk "Hi"] (Broken "boom")))
           (client (Streaming [textChunk "Hi"; doneChunk None None] Exhausted))
           config [hello] None [textChunk "Hi"] [doneChunk None None] _ _
           eq_refl eq_refl).
Defined.

Lemma identifiers_follow_the_draws_witness :
  omap idOfEvent
    (events (run (Streaming [callChunk [counter] false; callChunk [counter] true]
                            Exhausted)))
  = ["call_4fzyo82"; "call_k1x9q0c"].
Proof.
  exact (identifiers_follow_the_draws stringify random36
           (client (Streaming [callChunk [counter] false; callChunk [counter] true]
                              Exhausted))
           config [hello] None _ _ eq_refl).
Defined.

Lemma identifier_format_witness :
  newToolUseId Cases.zeroDraw 3 = "call_".
Proof.
  apply (identifier_format Cases.zeroDraw 3). simpl. lia.
Defined.

Lemma identifiers_distinct_iff_witness :
  NoDup (omap idOfEvent
           (events (run (Streaming [callChunk [counter] false; callChunk [counter] true]
                                   Exhausted)))).
Proof.
  apply (identifiers_distinct_iff stringify random36
           (client (Streaming [callChunk [counter] false; callChunk [counter] true]
                              Exhausted))
           config [hello] None _ _ eq_refl).
  simpl. apply NoDup_cons. split; [|apply NoDup_singleton].
  rewrite not_elem_of_cons. split; [discriminate|apply not_elem_of_nil].
Defined.


Lemma silent_chunks_invisible_witness :
  events (run (Streaming [textChunk "Hi"; doneChunk None None] Exhausted))
  = events (run (Streaming [textChunk ""; textChunk "Hi"; callChunk [] false;
                            doneChunk None None] Exhausted)).
Proof.
  exact (silent_chunks_invisible stringify random36
           (client (Streaming [textChunk ""; textChunk "Hi"; callChunk [] false;
                               doneChunk None None] Exhausted))
           (client (Streaming [textChunk "Hi"; doneChunk None None] Exhausted))
           config [hello] None _ Exhausted Exhausted eq_refl eq_refl).
Defined.

Lemma letter_count_bounded_witness :
  (LetterCounter.counted Cases.lower (Cases.items "Strawberry") (Cases.items "R")
   <= 10)%nat
  /\ LetterCounter.counted Cases.lower (Cases.items "") (Cases.items "R") = 0%nat.
Proof.
  destruct (letter_count_bounded Cases.lower (Cases.items "") (Cases.items "R"))
    as [_ Hempty].
  split; [|apply Hempty; reflexivity].
  exact (proj1 (letter_count_bounded Cases.lower
                  (Cases.items "Strawberry") (Cases.items "R"))).
Defined.

End MoreSamples.
